(** * Job-board client: session store, HTTP client and the jobs list screen

    A shallow embedding of the stateful parts of the client:
    - [AsyncStorage]: the on-device key/value store (a finite map of strings);
    - [Api]: the response interceptor of the shared axios instance
      (app/config/api.ts);
    - [AuthContext]: the auth provider's session restore and logout;
    - [FindJobs]: the browse-jobs screen (loadJobs, the filter/search/refresh/
      load-more handlers, handleSaveJob), with every [await] split into the
      part that runs before the gateway call and the part that runs when the
      call settles, so that responses can arrive in any order;
    - [JobDetails]: handleSaveJob of the job-details screen.

    React state is a record; a handler is a function on it.  The effect
    [useEffect(() => loadJobs(), [filters])] is made explicit: every
    [setFilters] with a fresh object is followed by [useEffect_filters]. *)

From stdpp Require Import base option list strings gmap fin_maps.
From Stdlib Require Import ZArith Lia.

Local Open Scope string_scope.
Local Open Scope list_scope.
Local Open Scope Z_scope.

(** JavaScript truthiness of a [string | null] value: null and the empty
    string are falsy. *)
Definition truthy (o : option string) : bool :=
  match o with
  | Some v => bool_decide (v ≠ "")
  | None => false
  end.

(** [o || d] on an optional string. *)
Definition or_else (o : option string) (d : string) : string :=
  match o with
  | Some v => if bool_decide (v ≠ "") then v else d
  | None => d
  end.

(** The error object a rejected axios call carries: [error.response?.status]
    and [error.response?.data?.error]. *)
Record AxiosError := {
  status : option Z;
  data_error : option string
}.

(** A settled promise. *)
Inductive Settled (A : Type) : Type :=
| Fulfilled (a : A)
| Rejected (e : AxiosError).
Arguments Fulfilled {A} a.
Arguments Rejected {A} e.

(** ** AsyncStorage *)
Module AsyncStorage.

Abbreviation t := (gmap string string).

Definition getItem (k : string) (st : t) : option string := st !! k.
Definition setItem (k v : string) (st : t) : t := <[k := v]> st.
Definition removeItem (k : string) (st : t) : t := delete k st.

End AsyncStorage.

(** ** config/api.ts: the response interceptor *)
Module Api.

(** The rejected branch of [api.interceptors.response.use]: on status 401 it
    removes [authToken] and then [userRole]; it always re-raises the error. *)
Definition response_rejected (error : AxiosError) (st : AsyncStorage.t)
  : AsyncStorage.t * Settled unit :=
  let st' :=
    if bool_decide (status error = Some 401) then
      AsyncStorage.removeItem "userRole"
        (AsyncStorage.removeItem "authToken" st)
    else st in
  (st', Rejected error).

End Api.

(** ** The auth provider *)
Module AuthContext.

Section Provider.

(** The parsed user object, and [JSON.parse] on the stored text: [None] when
    it throws, [Some None] when the text parses to [null]. *)
Context {User : Type} (JSON_parse : string → option (option User)).

Record State := {
  user : option User;
  userRole : option string;
  isLoading : bool;
  token : option string
}.

Definition setUser (v : option User) (s : State) : State :=
  {| user := v; userRole := userRole s; isLoading := isLoading s;
     token := token s |}.
Definition setUserRole (v : option string) (s : State) : State :=
  {| user := user s; userRole := v; isLoading := isLoading s;
     token := token s |}.
Definition setIsLoading (v : bool) (s : State) : State :=
  {| user := user s; userRole := userRole s; isLoading := v;
     token := token s |}.
Definition setToken (v : option string) (s : State) : State :=
  {| user := user s; userRole := userRole s; isLoading := isLoading s;
     token := v |}.

(** The [useState] initial values. *)
Definition initial : State :=
  {| user := None; userRole := None; isLoading := true; token := None |}.

(** [isAuthenticated: !!token]. *)
Definition isAuthenticated (s : State) : bool := truthy (token s).

(** [checkAuthStatus]: the three reads, the guarded restore, and the
    [finally].  A throwing [JSON.parse] is caught after the token and the
    role have been set. *)
Definition checkAuthStatus (st : AsyncStorage.t) (s : State) : State :=
  let storedToken := AsyncStorage.getItem "authToken" st in
  let storedRole := AsyncStorage.getItem "userRole" st in
  let storedUser := AsyncStorage.getItem "userData" st in
  let s1 :=
    if truthy storedToken && truthy storedRole && truthy storedUser then
      let s' := setUserRole storedRole (setToken storedToken s) in
      match storedUser ≫= JSON_parse with
      | Some u => setUser u s'
      | None => s'
      end
    else s in
  setIsLoading false s1.

(** [logout]: removes the three keys, then clears the in-memory session. *)
Definition logout (st : AsyncStorage.t) (s : State) : AsyncStorage.t * State :=
  let st' :=
    AsyncStorage.removeItem "userData"
      (AsyncStorage.removeItem "userRole"
        (AsyncStorage.removeItem "authToken" st)) in
  (st', setUser None (setUserRole None (setToken None s))).

End Provider.

Arguments State : clear implicits.

End AuthContext.

(** ** The jobs the list and details screens hold

    The fields of [JobWithDetails] the two screens read or write. *)
Record JobWithDetails := {
  id : string;
  title : string;
  isSaved : bool;
  hasApplied : bool
}.

(** [{ ...j, isSaved: v }]. *)
Definition with_isSaved (v : bool) (j : JobWithDetails) : JobWithDetails :=
  {| id := id j; title := title j; isSaved := v; hasApplied := hasApplied j |}.

(** A one-shot [Alert.alert(title, message)]. *)
Definition Alert : Type := string * string.

(** The pagination block of a jobs response and of the screen state. *)
Module Pagination.

Record t := {
  total : Z;
  page : Z;
  totalPages : Z
}.

End Pagination.

(** ** The browse-jobs screen *)
Module FindJobs.

(** The query object sent to [getAllJobs]; every field is optional. *)
Record JobFilters := {
  page : option Z;
  limit : option Z;
  search : option string;
  location : option string;
  employmentType : option string;
  experienceLevel : option string;
  salaryMin : option Z;
  salaryMax : option Z;
  skills : option (list string);
  isRemote : option bool
}.

Definition with_page (v : option Z) (f : JobFilters) : JobFilters :=
  {| page := v; limit := limit f; search := search f; location := location f;
     employmentType := employmentType f; experienceLevel := experienceLevel f;
     salaryMin := salaryMin f; salaryMax := salaryMax f; skills := skills f;
     isRemote := isRemote f |}.
Definition with_search (v : option string) (f : JobFilters) : JobFilters :=
  {| page := page f; limit := limit f; search := v; location := location f;
     employmentType := employmentType f; experienceLevel := experienceLevel f;
     salaryMin := salaryMin f; salaryMax := salaryMax f; skills := skills f;
     isRemote := isRemote f |}.
Definition with_location (v : option string) (f : JobFilters) : JobFilters :=
  {| page := page f; limit := limit f; search := search f; location := v;
     employmentType := employmentType f; experienceLevel := experienceLevel f;
     salaryMin := salaryMin f; salaryMax := salaryMax f; skills := skills f;
     isRemote := isRemote f |}.
Definition with_employmentType (v : option string) (f : JobFilters)
  : JobFilters :=
  {| page := page f; limit := limit f; search := search f;
     location := location f; employmentType := v;
     experienceLevel := experienceLevel f; salaryMin := salaryMin f;
     salaryMax := salaryMax f; skills := skills f; isRemote := isRemote f |}.
Definition with_experienceLevel (v : option string) (f : JobFilters)
  : JobFilters :=
  {| page := page f; limit := limit f; search := search f;
     location := location f; employmentType := employmentType f;
     experienceLevel := v; salaryMin := salaryMin f; salaryMax := salaryMax f;
     skills := skills f; isRemote := isRemote f |}.

(** [{ page: 1, limit: 10 }]. *)
Definition default_filters : JobFilters :=
  {| page := Some 1; limit := Some 10; search := None; location := None;
     employmentType := None; experienceLevel := None; salaryMin := None;
     salaryMax := None; skills := None; isRemote := None |}.

(** [filters.page === 1]. *)
Definition page_is_1 (f : JobFilters) : bool :=
  bool_decide (page f = Some 1).

(** [prev.page || 1]: an absent or zero page counts as 1. *)
Definition page_or_1 (f : JobFilters) : Z :=
  match page f with
  | Some p => if bool_decide (p = 0) then 1 else p
  | None => 1
  end.

(** A [loadJobs] call suspended at [await jobsAPI.getAllJobs(filters)]: the
    [filters] of the render it closed over and its [isRefresh] argument. *)
Record FetchCall := {
  call_filters : JobFilters;
  call_isRefresh : bool
}.

(** A [handleSaveJob] call suspended at its gateway call: the job id and
    whether [unsaveJob] (rather than [saveJob]) was called. *)
Record SaveCall := {
  save_jobId : string;
  save_unsave : bool
}.

(** [response.data] of [getAllJobs]: [jobs] and [pagination] may be absent. *)
Record JobsBody := {
  body_jobs : option (list JobWithDetails);
  body_pagination : option Pagination.t
}.

(** The component state ([useState] cells), the alerts shown so far, and the
    gateway calls that have been issued and have not settled yet. *)
Record Screen := {
  jobs : list JobWithDetails;
  isLoading : bool;
  isRefreshing : bool;
  isLoadingMore : bool;
  searchQuery : string;
  showFilters : bool;
  filters : JobFilters;
  pagination : Pagination.t;
  alerts : list Alert;
  fetches : list FetchCall;
  saves : list SaveCall
}.

Definition setJobs (v : list JobWithDetails) (s : Screen) : Screen :=
  {| jobs := v; isLoading := isLoading s; isRefreshing := isRefreshing s;
     isLoadingMore := isLoadingMore s; searchQuery := searchQuery s;
     showFilters := showFilters s; filters := filters s;
     pagination := pagination s; alerts := alerts s; fetches := fetches s;
     saves := saves s |}.
Definition setIsLoading (v : bool) (s : Screen) : Screen :=
  {| jobs := jobs s; isLoading := v; isRefreshing := isRefreshing s;
     isLoadingMore := isLoadingMore s; searchQuery := searchQuery s;
     showFilters := showFilters s; filters := filters s;
     pagination := pagination s; alerts := alerts s; fetches := fetches s;
     saves := saves s |}.
Definition setIsRefreshing (v : bool) (s : Screen) : Screen :=
  {| jobs := jobs s; isLoading := isLoading s; isRefreshing := v;
     isLoadingMore := isLoadingMore s; searchQuery := searchQuery s;
     showFilters := showFilters s; filters := filters s;
     pagination := pagination s; alerts := alerts s; fetches := fetches s;
     saves := saves s |}.
Definition setIsLoadingMore (v : bool) (s : Screen) : Screen :=
  {| jobs := jobs s; isLoading := isLoading s; isRefreshing := isRefreshing s;
     isLoadingMore := v; searchQuery := searchQuery s;
     showFilters := showFilters s; filters := filters s;
     pagination := pagination s; alerts := alerts s; fetches := fetches s;
     saves := saves s |}.
Definition setSearchQuery (v : string) (s : Screen) : Screen :=
  {| jobs := jobs s; isLoading := isLoading s; isRefreshing := isRefreshing s;
     isLoadingMore := isLoadingMore s; searchQuery := v;
     showFilters := showFilters s; filters := filters s;
     pagination := pagination s; alerts := alerts s; fetches := fetches s;
     saves := saves s |}.
Definition setShowFilters (v : bool) (s : Screen) : Screen :=
  {| jobs := jobs s; isLoading := isLoading s; isRefreshing := isRefreshing s;
     isLoadingMore := isLoadingMore s; searchQuery := searchQuery s;
     showFilters := v; filters := filters s;
     pagination := pagination s; alerts := alerts s; fetches := fetches s;
     saves := saves s |}.
Definition setFilters (v : JobFilters) (s : Screen) : Screen :=
  {| jobs := jobs s; isLoading := isLoading s; isRefreshing := isRefreshing s;
     isLoadingMore := isLoadingMore s; searchQuery := searchQuery s;
     showFilters := showFilters s; filters := v;
     pagination := pagination s; alerts := alerts s; fetches := fetches s;
     saves := saves s |}.
Definition setPagination (v : Pagination.t) (s : Screen) : Screen :=
  {| jobs := jobs s; isLoading := isLoading s; isRefreshing := isRefreshing s;
     isLoadingMore := isLoadingMore s; searchQuery := searchQuery s;
     showFilters := showFilters s; filters := filters s;
     pagination := v; alerts := alerts s; fetches := fetches s;
     saves := saves s |}.
Definition set_alerts (v : list Alert) (s : Screen) : Screen :=
  {| jobs := jobs s; isLoading := isLoading s; isRefreshing := isRefreshing s;
     isLoadingMore := isLoadingMore s; searchQuery := searchQuery s;
     showFilters := showFilters s; filters := filters s;
     pagination := pagination s; alerts := v; fetches := fetches s;
     saves := saves s |}.
Definition set_fetches (v : list FetchCall) (s : Screen) : Screen :=
  {| jobs := jobs s; isLoading := isLoading s; isRefreshing := isRefreshing s;
     isLoadingMore := isLoadingMore s; searchQuery := searchQuery s;
     showFilters := showFilters s; filters := filters s;
     pagination := pagination s; alerts := alerts s; fetches := v;
     saves := saves s |}.
Definition set_saves (v : list SaveCall) (s : Screen) : Screen :=
  {| jobs := jobs s; isLoading := isLoading s; isRefreshing := isRefreshing s;
     isLoadingMore := isLoadingMore s; searchQuery := searchQuery s;
     showFilters := showFilters s; filters := filters s;
     pagination := pagination s; alerts := alerts s; fetches := fetches s;
     saves := v |}.

(** [Alert.alert(title, message)]. *)
Definition alert (ttl msg : string) (s : Screen) : Screen :=
  set_alerts (alerts s ++ [(ttl, msg)]) s.

(** The state before the first render's effect has run. *)
Definition initial : Screen :=
  {| jobs := []; isLoading := true; isRefreshing := false;
     isLoadingMore := false; searchQuery := ""; showFilters := false;
     filters := default_filters;
     pagination := {| Pagination.total := 0; Pagination.page := 1;
                      Pagination.totalPages := 1 |};
     alerts := []; fetches := []; saves := [] |}.

(** *** loadJobs *)

(** [loadJobs(isRefresh)] up to its [await]: one flag is raised, chosen by
    [isRefresh] and by the page of the closed-over [filters], and the gateway
    call is issued. *)
Definition loadJobs_start (isRefresh : bool) (f : JobFilters) (s : Screen)
  : Screen :=
  let s1 :=
    if isRefresh then setIsRefreshing true s
    else if page_is_1 f then setIsLoading true s
    else setIsLoadingMore true s in
  set_fetches
    (fetches s1 ++ [{| call_filters := f; call_isRefresh := isRefresh |}]) s1.

(** The [try] body after the [await], for a fulfilled call.  A body without
    [jobs] only logs a warning; a body with [jobs] and no [pagination] throws
    on [response.data.pagination.total] after [setJobs] has run, which the
    [catch] turns into the fallback alert. *)
Definition loadJobs_fulfilled (c : FetchCall) (data : option JobsBody)
  (s : Screen) : Screen :=
  match data ≫= body_jobs with
  | Some newJobs =>
      let s1 :=
        if page_is_1 (call_filters c) || call_isRefresh c
        then setJobs newJobs s
        else setJobs (jobs s ++ newJobs) s in
      match data ≫= body_pagination with
      | Some p => setPagination p s1
      | None => alert "Error" "Failed to load jobs" s1
      end
  | None => s
  end.

(** The [catch] block. *)
Definition loadJobs_rejected (e : AxiosError) (s : Screen) : Screen :=
  alert "Error" (or_else (data_error e) "Failed to load jobs") s.

(** The [finally] block. *)
Definition loadJobs_finally (s : Screen) : Screen :=
  setIsLoadingMore false (setIsRefreshing false (setIsLoading false s)).

(** [loadJobs] from its [await] on, once the gateway call has settled. *)
Definition loadJobs_resume (c : FetchCall) (r : Settled (option JobsBody))
  (s : Screen) : Screen :=
  loadJobs_finally
    match r with
    | Fulfilled data => loadJobs_fulfilled c data s
    | Rejected e => loadJobs_rejected e s
    end.

(** [useEffect(() => { loadJobs(); }, [filters])]: runs after the first render
    and after every render in which [filters] is a new object. *)
Definition useEffect_filters (s : Screen) : Screen :=
  loadJobs_start false (filters s) s.

(** The screen once mounted: the first effect has issued the first fetch. *)
Definition mounted : Screen := useEffect_filters initial.

(** *** Handlers *)

Definition handleSearch (s : Screen) : Screen :=
  useEffect_filters
    (setFilters
       (with_page (Some 1) (with_search (Some (searchQuery s)) (filters s))) s).

(** [loadJobs(true)] runs inside the handler, with the [filters] of the
    current render; the effect then runs with the new [filters]. *)
Definition handleRefresh (s : Screen) : Screen :=
  let s1 := loadJobs_start true (filters s) s in
  useEffect_filters (setFilters (with_page (Some 1) (filters s1)) s1).

Definition handleLoadMore (s : Screen) : Screen :=
  if negb (isLoadingMore s)
     && bool_decide (Pagination.page (pagination s)
                     < Pagination.totalPages (pagination s))
  then
    useEffect_filters
      (setFilters (with_page (Some (page_or_1 (filters s) + 1)) (filters s)) s)
  else s.

Definition handleApplyFilters (newFilters : JobFilters) (s : Screen)
  : Screen :=
  useEffect_filters
    (setShowFilters false (setFilters (with_page (Some 1) newFilters) s)).

Definition handleClearFilters (s : Screen) : Screen :=
  useEffect_filters (setFilters default_filters (setSearchQuery "" s)).

(** The close buttons of the three active-filter chips. *)
Definition removeLocationChip (s : Screen) : Screen :=
  useEffect_filters
    (setFilters (with_page (Some 1) (with_location None (filters s))) s).
Definition removeEmploymentTypeChip (s : Screen) : Screen :=
  useEffect_filters
    (setFilters (with_page (Some 1) (with_employmentType None (filters s))) s).
Definition removeExperienceLevelChip (s : Screen) : Screen :=
  useEffect_filters
    (setFilters (with_page (Some 1) (with_experienceLevel None (filters s))) s).

(** [jobs.find((j) => j.id === jobId)]. *)
Definition find_job (jobId : string) (l : list JobWithDetails)
  : option JobWithDetails :=
  List.find (λ j, bool_decide (id j = jobId)) l.

(** [handleSaveJob(jobId)] up to its [await]: no state is written; the
    gateway call is chosen by the job's current [isSaved]. *)
Definition handleSaveJob_start (jobId : string) (s : Screen) : Screen :=
  match find_job jobId (jobs s) with
  | None => s
  | Some job =>
      set_saves
        (saves s ++ [{| save_jobId := jobId; save_unsave := isSaved job |}]) s
  end.

(** [prev.map((j) => j.id === jobId ? { ...j, isSaved: !j.isSaved } : j)]. *)
Definition toggle_saved (jobId : string) (l : list JobWithDetails)
  : list JobWithDetails :=
  (λ j, if bool_decide (id j = jobId)
        then with_isSaved (negb (isSaved j)) j else j) <$> l.

(** [handleSaveJob] from its [await] on. *)
Definition handleSaveJob_resume (c : SaveCall) (r : Settled unit) (s : Screen)
  : Screen :=
  match r with
  | Fulfilled _ =>
      let s1 :=
        alert "Success"
          (if save_unsave c then "Job removed from saved"
           else "Job saved successfully") s in
      setJobs (toggle_saved (save_jobId c) (jobs s1)) s1
  | Rejected e =>
      alert "Error" (or_else (data_error e) "Failed to save job") s
  end.

(** *** The event loop

    What can happen to a mounted screen: a user gesture, or a pending gateway
    call settling (in any order: the call is picked by its position among the
    pending ones). *)
Inductive Event :=
| TypeSearch (text : string)
| Search
| Refresh
| LoadMore
| OpenFilters
| CloseFilters
| ApplyFilters (newFilters : JobFilters)
| ClearFilters
| RemoveLocationChip
| RemoveEmploymentTypeChip
| RemoveExperienceLevelChip
| SaveJob (jobId : string)
| FetchSettles (n : nat) (r : Settled (option JobsBody))
| SaveSettles (n : nat) (r : Settled unit).

(** While [isLoading] the component returns the spinner view only: the list,
    its header and the filter modal are not rendered, so no gesture can reach
    a handler.  The modal's apply button needs [showFilters]; a chip is
    rendered only for a truthy filter value. *)
Definition enabled (e : Event) (s : Screen) : bool :=
  match e with
  | FetchSettles _ _ | SaveSettles _ _ => true
  | ApplyFilters _ => negb (isLoading s) && showFilters s
  | RemoveLocationChip => negb (isLoading s) && truthy (location (filters s))
  | RemoveEmploymentTypeChip =>
      negb (isLoading s) && truthy (employmentType (filters s))
  | RemoveExperienceLevelChip =>
      negb (isLoading s) && truthy (experienceLevel (filters s))
  | _ => negb (isLoading s)
  end.

Definition step (e : Event) (s : Screen) : option Screen :=
  if enabled e s then
    match e with
    | TypeSearch text => Some (setSearchQuery text s)
    | Search => Some (handleSearch s)
    | Refresh => Some (handleRefresh s)
    | LoadMore => Some (handleLoadMore s)
    | OpenFilters => Some (setShowFilters true s)
    | CloseFilters => Some (setShowFilters false s)
    | ApplyFilters newFilters => Some (handleApplyFilters newFilters s)
    | ClearFilters => Some (handleClearFilters s)
    | RemoveLocationChip => Some (removeLocationChip s)
    | RemoveEmploymentTypeChip => Some (removeEmploymentTypeChip s)
    | RemoveExperienceLevelChip => Some (removeExperienceLevelChip s)
    | SaveJob jobId => Some (handleSaveJob_start jobId s)
    | FetchSettles n r =>
        c ← fetches s !! n;
        Some (loadJobs_resume c r (set_fetches (delete n (fetches s)) s))
    | SaveSettles n r =>
        c ← saves s !! n;
        Some (handleSaveJob_resume c r (set_saves (delete n (saves s)) s))
    end
  else None.

(** Running a sequence of events, oldest first. *)
Fixpoint exec (evs : list Event) (s : Screen) : option Screen :=
  match evs with
  | [] => Some s
  | e :: evs' => step e s ≫= exec evs'
  end.

(** The states a mounted screen can be in. *)
Definition reachable (s : Screen) : Prop :=
  ∃ evs, exec evs mounted = Some s.

(** All three loading flags are down. *)
Definition idle (s : Screen) : Prop :=
  isLoading s = false ∧ isRefreshing s = false ∧ isLoadingMore s = false.

(** How many of the three loading flags are up. *)
Definition flags_up (s : Screen) : nat :=
  (Nat.b2n (isLoading s) + Nat.b2n (isRefreshing s)
   + Nat.b2n (isLoadingMore s))%nat.

(** The page of a query is present and positive. *)
Definition page_ok (f : JobFilters) : Prop :=
  ∃ p, page f = Some p ∧ 1 ≤ p.

(** A handler that leaves the query on page 1 and whose effect has issued a
    plain (non-refresh) fetch for exactly that query. *)
Definition resets_page (h : Screen → Screen) (s : Screen) : Prop :=
  page (filters (h s)) = Some 1
  ∧ fetches (h s)
    = fetches s
      ++ [{| call_filters := filters (h s); call_isRefresh := false |}].

(** The ids of the items, in list order. *)
Definition ids (l : list JobWithDetails) : list string := id <$> l.

(** The saved flag the list shows for a job id. *)
Definition saved_flag (jobId : string) (s : Screen) : option bool :=
  isSaved <$> find_job jobId (jobs s).

End FindJobs.

(** ** The job-details screen *)
Module JobDetails.

(** A [handleSaveJob] call suspended at its gateway call; it closes over the
    [job] of the render it was created in. *)
Record SaveCall := {
  save_job : JobWithDetails
}.

Record Screen := {
  job : option JobWithDetails;
  alerts : list Alert;
  saves : list SaveCall
}.

Definition setJob (v : option JobWithDetails) (s : Screen) : Screen :=
  {| job := v; alerts := alerts s; saves := saves s |}.
Definition alert (ttl msg : string) (s : Screen) : Screen :=
  {| job := job s; alerts := alerts s ++ [(ttl, msg)]; saves := saves s |}.

(** [handleSaveJob()] up to its [await]: no state is written. *)
Definition handleSaveJob_start (s : Screen) : Screen :=
  match job s with
  | None => s
  | Some j =>
      {| job := job s; alerts := alerts s;
         saves := saves s ++ [{| save_job := j |}] |}
  end.

(** [handleSaveJob] from its [await] on. *)
Definition handleSaveJob_resume (c : SaveCall) (r : Settled unit) (s : Screen)
  : Screen :=
  let j := save_job c in
  match r with
  | Fulfilled _ =>
      if isSaved j then
        setJob (Some (with_isSaved false j))
          (alert "Success" "Job removed from saved" s)
      else
        setJob (Some (with_isSaved true j))
          (alert "Success" "Job saved successfully" s)
  | Rejected e =>
      alert "Error" (or_else (data_error e) "Failed to save job") s
  end.

End JobDetails.

(** ** The auth provider: login, register, updateUser *)

(** [response.data.data] of the login and register endpoints. *)
Module LoginResponse.

Record t (User : Type) := {
  token : string;
  user : User
}.
Arguments token {User} _.
Arguments user {User} _.

(** What [response.data.data] holds when it is present: the whole payload, or
    a token with the [user] field missing. *)
Inductive body (User : Type) :=
| Complete (d : t User)
| TokenOnly (authToken : string).
Arguments Complete {User} d.
Arguments TokenOnly {User} authToken.

End LoginResponse.

(** What [login] and [register] resolve to:
    [{ success: boolean; error?: string; user?: any }]. *)
Module AuthResult.

Record t (User : Type) := {
  success : bool;
  error : option string;
  user : option User
}.
Arguments success {User} _.
Arguments error {User} _.
Arguments user {User} _.

End AuthResult.

Module AuthActions.

Section Actions.

(** [JSON.stringify] on a user object and the user's [role] field. *)
Context {User : Type} (JSON_stringify : User → string) (role : User → string).

(** [login(email, password)] from [await authAPI.login(...)] on: [r] is the
    settled gateway call.  The call goes through the shared axios client, so
    a rejection reaches the [catch] only after the response interceptor has
    handled it (on a 401 the token and the role are already removed).  A
    fulfilled response without [data.data] throws at the destructuring; one
    with a token and no user throws at [userData.role], after the token has
    been stored.  Either lands in the [catch] with no [error.response]. *)
Definition login (r : Settled (option (LoginResponse.body User)))
  (st : AsyncStorage.t) (s : AuthContext.State User)
  : AsyncStorage.t * AuthContext.State User * AuthResult.t User :=
  match r with
  | Fulfilled (Some (LoginResponse.Complete d)) =>
      let authToken := LoginResponse.token d in
      let userData := LoginResponse.user d in
      let st1 := AsyncStorage.setItem "authToken" authToken st in
      let st2 := AsyncStorage.setItem "userRole" (role userData) st1 in
      let st3 := AsyncStorage.setItem "userData" (JSON_stringify userData) st2 in
      let s' :=
        AuthContext.setUser (Some userData)
          (AuthContext.setUserRole (Some (role userData))
             (AuthContext.setToken (Some authToken) s)) in
      (st3, s',
       {| AuthResult.success := true; AuthResult.error := None;
          AuthResult.user := Some userData |})
  | Fulfilled (Some (LoginResponse.TokenOnly authToken)) =>
      (AsyncStorage.setItem "authToken" authToken st, s,
       {| AuthResult.success := false;
          AuthResult.error := Some "Login failed";
          AuthResult.user := None |})
  | Fulfilled None =>
      (st, s,
       {| AuthResult.success := false;
          AuthResult.error := Some "Login failed";
          AuthResult.user := None |})
  | Rejected e =>
      ((Api.response_rejected e st).1, s,
       {| AuthResult.success := false;
          AuthResult.error := Some (or_else (data_error e) "Login failed");
          AuthResult.user := None |})
  end.

(** [register(userData)] from [await authAPI.register(userData)] on; the
    same paths as [login]. *)
Definition register (r : Settled (option (LoginResponse.body User)))
  (st : AsyncStorage.t) (s : AuthContext.State User)
  : AsyncStorage.t * AuthContext.State User * AuthResult.t User :=
  match r with
  | Fulfilled (Some (LoginResponse.Complete d)) =>
      let authToken := LoginResponse.token d in
      let registeredUser := LoginResponse.user d in
      let st1 := AsyncStorage.setItem "authToken" authToken st in
      let st2 := AsyncStorage.setItem "userRole" (role registeredUser) st1 in
      let st3 :=
        AsyncStorage.setItem "userData" (JSON_stringify registeredUser) st2 in
      let s' :=
        AuthContext.setUser (Some registeredUser)
          (AuthContext.setUserRole (Some (role registeredUser))
             (AuthContext.setToken (Some authToken) s)) in
      (st3, s',
       {| AuthResult.success := true; AuthResult.error := None;
          AuthResult.user := Some registeredUser |})
  | Fulfilled (Some (LoginResponse.TokenOnly authToken)) =>
      (AsyncStorage.setItem "authToken" authToken st, s,
       {| AuthResult.success := false;
          AuthResult.error := Some "Registration failed";
          AuthResult.user := None |})
  | Fulfilled None =>
      (st, s,
       {| AuthResult.success := false;
          AuthResult.error := Some "Registration failed";
          AuthResult.user := None |})
  | Rejected e =>
      ((Api.response_rejected e st).1, s,
       {| AuthResult.success := false;
          AuthResult.error :=
            Some (or_else (data_error e) "Registration failed");
          AuthResult.user := None |})
  end.


(** [isJobSeeker: userRole === UserRole.JOB_SEEKER] and
    [isEmployer: userRole === UserRole.EMPLOYER]. *)
Definition isJobSeeker (s : AuthContext.State User) : bool :=
  bool_decide (AuthContext.userRole s = Some "JOB_SEEKER").
Definition isEmployer (s : AuthContext.State User) : bool :=
  bool_decide (AuthContext.userRole s = Some "EMPLOYER").

End Actions.

End AuthActions.

(** ** config/api.ts: the request interceptor *)
Module ApiRequest.

(** The part of the axios request config the interceptor reads and writes:
    [config.headers], which may be absent. *)
Record Config := {
  headers : option (gmap string string)
}.

(** The fulfilled branch of [api.interceptors.request.use]: when the stored
    token is truthy and the config has headers, [Authorization] is set to
    ["Bearer " + token]; the config is returned either way. *)
Definition request_fulfilled (config : Config) (st : AsyncStorage.t)
  : Config :=
  match AsyncStorage.getItem "authToken" st, headers config with
  | Some token, Some h =>
      if bool_decide (token ≠ "")
      then {| headers := Some (<["Authorization" := "Bearer " +:+ token]> h) |}
      else config
  | _, _ => config
  end.

End ApiRequest.

(** ** app/_layout.tsx: the navigation guard *)
Module RootLayout.

Section Nav.

Context {User : Type} (role : User → string).

(** The effect of [RootLayoutNav]: [Some route] when it calls
    [router.replace(route)], [None] when it does nothing.  [segments] is the
    value of [useSegments()]. *)
Definition redirect (isLoading : bool) (user : option User)
  (segments : list string) : option string :=
  if isLoading then None
  else
    let inAuthGroup := bool_decide (segments !! 0%nat = Some "(auth)") in
    let inEmployerGroup := bool_decide (segments !! 0%nat = Some "(employer)") in
    let inJobSeekerGroup :=
      bool_decide (segments !! 0%nat = Some "(jobseeker)") in
    match user with
    | None => if negb inAuthGroup then Some "/(auth)/login" else None
    | Some u =>
        if bool_decide (role u = "EMPLOYER") && negb inEmployerGroup
        then Some "/(employer)"
        else if bool_decide (role u = "JOB_SEEKER") && negb inJobSeekerGroup
        then Some "/(jobseeker)"
        else None
    end.

End Nav.

(** The path components of a route, as the router reports them after a
    navigation: the text between slashes, route groups included. *)
Fixpoint segments_from (cur : string) (route : string) : list string :=
  match route with
  | EmptyString => if bool_decide (cur = "") then [] else [cur]
  | String c rest =>
      if bool_decide (String c EmptyString = "/")
      then (if bool_decide (cur = "") then [] else [cur])
           ++ segments_from "" rest
      else segments_from (cur +:+ String c EmptyString) rest
  end.

Definition segments_of (route : string) : list string :=
  segments_from "" route.

End RootLayout.

(** ** Concrete data for the scenarios *)
Module Scenario.
Import FindJobs.

Definition mkJob (i : string) (saved : bool) : JobWithDetails :=
  {| id := i; title := "Engineer"; isSaved := saved; hasApplied := false |}.

(** A fulfilled [getAllJobs] response carrying [l] as page [p] of [n]. *)
Definition page_of (l : list JobWithDetails) (p n : Z)
  : Settled (option JobsBody) :=
  Fulfilled
    (Some {| body_jobs := Some l;
             body_pagination :=
               Some {| Pagination.total := 10 * n; Pagination.page := p;
                       Pagination.totalPages := n |} |}).

(** A rejected gateway call with no response (network failure). *)
Definition network_error {A} : Settled A :=
  Rejected {| status := None; data_error := None |}.

(** A rejected gateway call carrying an HTTP status. *)
Definition http_error (code : Z) : AxiosError :=
  {| status := Some code; data_error := None |}.

(** The filter modal's result for "jobs in Cebu". *)
Definition cebu : JobFilters :=
  with_location (Some "Cebu") default_filters.

(** A device storage holding a complete session. *)
Definition full_session : gmap string string :=
  AsyncStorage.setItem "userData" "{}"
    (AsyncStorage.setItem "userRole" "JOB_SEEKER"
      (AsyncStorage.setItem "authToken" "tok" ∅)).

(** A device storage as a 401 leaves it when nothing else intervenes. *)
Definition user_only : gmap string string :=
  AsyncStorage.setItem "userData" "{}" ∅.

(** The first page arrives; the user scrolls to the end; the second page
    overlaps the first in job [j2]. *)
Definition overlapping_pages : list Event :=
  [ FetchSettles 0 (page_of [mkJob "j1" false; mkJob "j2" false] 1 2);
    LoadMore;
    FetchSettles 0 (page_of [mkJob "j2" false; mkJob "j3" false] 2 2) ].

(** A load-more for the unfiltered query is pending when the user applies
    the Cebu filter; the Cebu page arrives first, the superseded page after
    it. *)
Definition superseded_load_more : list Event :=
  [ FetchSettles 0 (page_of [mkJob "a1" false; mkJob "a2" false] 1 2);
    LoadMore;
    OpenFilters;
    ApplyFilters cebu;
    FetchSettles 1 (page_of [mkJob "b1" false] 1 1);
    FetchSettles 0 (page_of [mkJob "a3" false] 2 2) ].

(** The first page arrives; the user scrolls to the end; the fetch of the
    second page fails. *)
Definition failed_load_more : list Event :=
  [ FetchSettles 0 (page_of [mkJob "j1" false] 1 3);
    LoadMore;
    FetchSettles 0 network_error ].

(** The first page arrives; the user pulls to refresh. *)
Definition pull_to_refresh : list Event :=
  [ FetchSettles 0 (page_of [mkJob "j1" false] 1 1);
    Refresh ].

(** The first page arrives; the user taps the bookmark of [j1]. *)
Definition tap_save : list Event :=
  [ FetchSettles 0 (page_of [mkJob "j1" false] 1 1);
    SaveJob "j1" ].

(** The state the mounted screen is in after the events [evs]. *)
Definition after (evs : list Event) : Screen :=
  default mounted (exec evs mounted).

(** The first page of two has arrived. *)
Definition first_page : list Event :=
  [ FetchSettles 0 (page_of [mkJob "j1" false; mkJob "j2" true] 1 2) ].

End Scenario.

(** ** The browse-jobs screen: the filter badge *)
Module FindJobsView.

(** Truthiness of an optional number: absent and zero are falsy. *)
Definition truthy_num (o : option Z) : bool :=
  match o with
  | Some n => bool_decide (n ≠ 0)
  | None => false
  end.

(** [getActiveFiltersCount()]: one for each of location, employment type,
    experience level, minimum salary, a non-empty skills array and the remote
    flag. *)
Definition getActiveFiltersCount (f : FindJobs.JobFilters) : nat :=
  let count := 0%nat in
  let count := if truthy (FindJobs.location f) then S count else count in
  let count := if truthy (FindJobs.employmentType f) then S count else count in
  let count :=
    if truthy (FindJobs.experienceLevel f) then S count else count in
  let count := if truthy_num (FindJobs.salaryMin f) then S count else count in
  let count :=
    if match FindJobs.skills f with
       | Some l => bool_decide (0 < length l)%nat
       | None => false
       end
    then S count else count in
  let count :=
    if default false (FindJobs.isRemote f) then S count else count in
  count.

End FindJobsView.

(** The success message of a save toggle, by the job's flag at the tap. *)
Definition save_message (wasSaved : bool) : string :=
  if wasSaved then "Job removed from saved" else "Job saved successfully".

(** ** components/job-filters-modal.tsx: the filter form

    The modal keeps its own [filters]; its Apply button hands them to the
    screen's [handleApplyFilters]. *)
Module JobFiltersModal.
Import FindJobs.

Definition with_salary (lo hi : option Z) (f : JobFilters) : JobFilters :=
  {| page := page f; limit := limit f; search := search f;
     location := location f; employmentType := employmentType f;
     experienceLevel := experienceLevel f; salaryMin := lo; salaryMax := hi;
     skills := skills f; isRemote := isRemote f |}.
Definition with_isRemote (v : option bool) (f : JobFilters) : JobFilters :=
  {| page := page f; limit := limit f; search := search f;
     location := location f; employmentType := employmentType f;
     experienceLevel := experienceLevel f; salaryMin := salaryMin f;
     salaryMax := salaryMax f; skills := skills f; isRemote := v |}.

(** [n || undefined] on a [number | null]: null and zero become absent. *)
Definition or_undefined (n : option Z) : option Z :=
  match n with
  | Some v => if bool_decide (v ≠ 0) then Some v else None
  | None => None
  end.

Definition handleReset (f : JobFilters) : JobFilters := default_filters.

Definition toggleJobType (type : string) (f : JobFilters) : JobFilters :=
  with_employmentType
    (if bool_decide (employmentType f = Some type) then None else Some type) f.

Definition toggleExperienceLevel (level : string) (f : JobFilters)
  : JobFilters :=
  with_experienceLevel
    (if bool_decide (experienceLevel f = Some level) then None
     else Some level) f.

Definition setSalaryRange (min max : option Z) (f : JobFilters) : JobFilters :=
  with_salary (or_undefined min) (or_undefined max) f.

(** The remote switch: [isRemote: !filters.isRemote]. *)
Definition toggleRemote (f : JobFilters) : JobFilters :=
  with_isRemote (Some (negb (default false (isRemote f)))) f.

(** The modal's own [getActiveFiltersCount()]: the salary counts when either
    bound is set, and skills are not counted. *)
Definition getActiveFiltersCount (f : JobFilters) : nat :=
  let count := 0%nat in
  let count := if truthy (location f) then S count else count in
  let count := if truthy (employmentType f) then S count else count in
  let count := if truthy (experienceLevel f) then S count else count in
  let count :=
    if FindJobsView.truthy_num (salaryMin f)
       || FindJobsView.truthy_num (salaryMax f)
    then S count else count in
  let count := if default false (isRemote f) then S count else count in
  count.

(** Whether a salary option [{ min, max }] is drawn as selected:
    [salaryMin === range.min &&
     (salaryMax === range.max || (!salaryMax && !range.max))]. *)
Definition isSelected (min max : option Z) (f : JobFilters) : bool :=
  match min with
  | Some lo => bool_decide (salaryMin f = Some lo)
  | None => false
  end
  && (match max with
      | Some hi => bool_decide (salaryMax f = Some hi)
      | None => false
      end
      || (negb (FindJobsView.truthy_num (salaryMax f))
          && negb (FindJobsView.truthy_num max))).

End JobFiltersModal.

(** ** The my-applications screen *)
Module MyApplications.

(** The fields of an application the screen's logic reads: its id, the
    title of its job ([job.title]), the employer's name
    ([job.employer.companyName]) and its status. *)
Record Application := {
  id : string;
  job_title : string;
  companyName : string;
  status : string
}.

(** [type FilterStatus], and the string each value is. *)
Inductive FilterStatus :=
| ALL | PENDING | REVIEWING | INTERVIEW_SCHEDULED | OFFERED | ACCEPTED
| REJECTED.

#[global] Instance FilterStatus_eq_dec : EqDecision FilterStatus.
Proof. solve_decision. Defined.

Definition FilterStatus_str (f : FilterStatus) : string :=
  match f with
  | ALL => "ALL"
  | PENDING => "PENDING"
  | REVIEWING => "REVIEWING"
  | INTERVIEW_SCHEDULED => "INTERVIEW_SCHEDULED"
  | OFFERED => "OFFERED"
  | ACCEPTED => "ACCEPTED"
  | REJECTED => "REJECTED"
  end.

(** [response.data] of [getMyApplications]: an object with an
    [applications] array, a bare array, or anything else. *)
Inductive ApplicationsData :=
| WithApplications (l : list Application)
| BareArray (l : list Application)
| OtherData.


(** The component state, the alerts shown so far, the confirmation dialogs
    that are open (application id and job title), the number of
    [getMyApplications] calls in flight and the [withdrawApplication] calls
    in flight (by application id). *)
Record Screen := {
  applications : list Application;
  filteredApplications : list Application;
  isLoading : bool;
  refreshing : bool;
  searchQuery : string;
  filterStatus : FilterStatus;
  alerts : list Alert;
  dialogs : list (string * string);
  loads : nat;
  withdraws : list string
}.

Definition setApplications (v : list Application) (s : Screen) : Screen :=
  {| applications := v; filteredApplications := filteredApplications s;
     isLoading := isLoading s; refreshing := refreshing s;
     searchQuery := searchQuery s; filterStatus := filterStatus s;
     alerts := alerts s; dialogs := dialogs s; loads := loads s;
     withdraws := withdraws s |}.
Definition setFilteredApplications (v : list Application) (s : Screen)
  : Screen :=
  {| applications := applications s; filteredApplications := v;
     isLoading := isLoading s; refreshing := refreshing s;
     searchQuery := searchQuery s; filterStatus := filterStatus s;
     alerts := alerts s; dialogs := dialogs s; loads := loads s;
     withdraws := withdraws s |}.
Definition setIsLoading (v : bool) (s : Screen) : Screen :=
  {| applications := applications s;
     filteredApplications := filteredApplications s;
     isLoading := v; refreshing := refreshing s;
     searchQuery := searchQuery s; filterStatus := filterStatus s;
     alerts := alerts s; dialogs := dialogs s; loads := loads s;
     withdraws := withdraws s |}.
Definition setRefreshing (v : bool) (s : Screen) : Screen :=
  {| applications := applications s;
     filteredApplications := filteredApplications s;
     isLoading := isLoading s; refreshing := v;
     searchQuery := searchQuery s; filterStatus := filterStatus s;
     alerts := alerts s; dialogs := dialogs s; loads := loads s;
     withdraws := withdraws s |}.
Definition setSearchQuery (v : string) (s : Screen) : Screen :=
  {| applications := applications s;
     filteredApplications := filteredApplications s;
     isLoading := isLoading s; refreshing := refreshing s;
     searchQuery := v; filterStatus := filterStatus s;
     alerts := alerts s; dialogs := dialogs s; loads := loads s;
     withdraws := withdraws s |}.
Definition setFilterStatus (v : FilterStatus) (s : Screen) : Screen :=
  {| applications := applications s;
     filteredApplications := filteredApplications s;
     isLoading := isLoading s; refreshing := refreshing s;
     searchQuery := searchQuery s; filterStatus := v;
     alerts := alerts s; dialogs := dialogs s; loads := loads s;
     withdraws := withdraws s |}.
Definition alert (ttl msg : string) (s : Screen) : Screen :=
  {| applications := applications s;
     filteredApplications := filteredApplications s;
     isLoading := isLoading s; refreshing := refreshing s;
     searchQuery := searchQuery s; filterStatus := filterStatus s;
     alerts := alerts s ++ [(ttl, msg)]; dialogs := dialogs s;
     loads := loads s; withdraws := withdraws s |}.
Definition set_dialogs (v : list (string * string)) (s : Screen) : Screen :=
  {| applications := applications s;
     filteredApplications := filteredApplications s;
     isLoading := isLoading s; refreshing := refreshing s;
     searchQuery := searchQuery s; filterStatus := filterStatus s;
     alerts := alerts s; dialogs := v; loads := loads s;
     withdraws := withdraws s |}.
Definition set_loads (v : nat) (s : Screen) : Screen :=
  {| applications := applications s;
     filteredApplications := filteredApplications s;
     isLoading := isLoading s; refreshing := refreshing s;
     searchQuery := searchQuery s; filterStatus := filterStatus s;
     alerts := alerts s; dialogs := dialogs s; loads := v;
     withdraws := withdraws s |}.
Definition set_withdraws (v : list string) (s : Screen) : Screen :=
  {| applications := applications s;
     filteredApplications := filteredApplications s;
     isLoading := isLoading s; refreshing := refreshing s;
     searchQuery := searchQuery s; filterStatus := filterStatus s;
     alerts := alerts s; dialogs := dialogs s; loads := loads s;
     withdraws := v |}.





Section Filter.

(** The string primitives the filter uses: [String.prototype.toLowerCase],
    [s.includes(q)] and [String.prototype.trim]. *)
Context (toLowerCase : string → string) (includes : string → string → bool)
  (trim : string → string).

(** The list [filterAndSearchApplications] computes.  The search runs when
    the trimmed query is non-empty, but matches against the untrimmed
    lower-cased query. *)
Definition filtered_of (apps : list Application) (query : string)
  (fs : FilterStatus) : list Application :=
  let filtered := apps in
  let filtered :=
    if bool_decide (fs ≠ ALL)
    then List.filter
           (λ app, bool_decide (status app = FilterStatus_str fs)) filtered
    else filtered in
  let filtered :=
    if bool_decide (trim query ≠ "")
    then
      let q := toLowerCase query in
      List.filter
        (λ app, includes (toLowerCase (job_title app)) q
                || includes (toLowerCase (companyName app)) q) filtered
    else filtered in
  filtered.

Definition filterAndSearchApplications (s : Screen) : Screen :=
  setFilteredApplications
    (filtered_of (applications s) (searchQuery s) (filterStatus s)) s.

(** [loadApplications()] up to its [await]: no state is written. *)
Definition loadApplications_start (s : Screen) : Screen :=
  set_loads (S (loads s)) s.

(** The [finally] block of [loadApplications]. *)
Definition loadApplications_finally (s : Screen) : Screen :=
  setRefreshing false (setIsLoading false s).

(** [loadApplications] from its [await] on.  When [setApplications] has run,
    the filter effect (which depends on [applications]) runs after it. *)
Definition loadApplications_resume (r : Settled ApplicationsData) (s : Screen)
  : Screen :=
  let s0 := set_loads (pred (loads s)) s in
  match r with
  | Fulfilled (WithApplications l) =>
      filterAndSearchApplications
        (loadApplications_finally (setApplications l s0))
  | Fulfilled (BareArray l) =>
      filterAndSearchApplications
        (loadApplications_finally (setApplications l s0))
  | Fulfilled OtherData => loadApplications_finally s0
  | Rejected _ =>
      loadApplications_finally
        (alert "Error" "Failed to load applications" s0)
  end.

(** [onRefresh]. *)
Definition onRefresh (s : Screen) : Screen :=
  loadApplications_start (setRefreshing true s).

(** Typing in the search box and picking a status tab, each followed by the
    filter effect. *)
Definition typeSearch (text : string) (s : Screen) : Screen :=
  filterAndSearchApplications (setSearchQuery text s).
Definition pickStatus (fs : FilterStatus) (s : Screen) : Screen :=
  filterAndSearchApplications (setFilterStatus fs s).

(** [handleWithdrawApplication(applicationId, jobTitle)]: opens the
    confirmation dialog; nothing else happens until a button is pressed. *)
Definition handleWithdrawApplication (applicationId jobTitle : string)
  (s : Screen) : Screen :=
  set_dialogs (dialogs s ++ [(applicationId, jobTitle)]) s.

(** The dialog's Cancel button. *)
Definition pressCancel (n : nat) (s : Screen) : Screen :=
  set_dialogs (delete n (dialogs s)) s.

(** The dialog's Withdraw button, up to the [await] of the gateway call. *)
Definition pressWithdraw (n : nat) (s : Screen) : Screen :=
  match dialogs s !! n with
  | Some (applicationId, _) =>
      set_withdraws (withdraws s ++ [applicationId])
        (set_dialogs (delete n (dialogs s)) s)
  | None => s
  end.

(** The Withdraw button's handler from its [await] on: on success the
    success alert and a reload; on failure the error alert only. *)
Definition withdraw_resume (n : nat) (r : Settled unit) (s : Screen)
  : Screen :=
  match withdraws s !! n with
  | Some _ =>
      let s0 := set_withdraws (delete n (withdraws s)) s in
      match r with
      | Fulfilled _ =>
          loadApplications_start
            (alert "Success" "Application withdrawn successfully" s0)
      | Rejected e =>
          alert "Error"
            (or_else (data_error e) "Failed to withdraw application") s0
      end
  | None => s
  end.

(** The [useState] initial values, and the screen once both effects of the
    first render have run. *)
Definition initial : Screen :=
  {| applications := []; filteredApplications := []; isLoading := true;
     refreshing := false; searchQuery := ""; filterStatus := ALL;
     alerts := []; dialogs := []; loads := 0; withdraws := [] |}.

Definition mounted : Screen :=
  filterAndSearchApplications (loadApplications_start initial).

End Filter.


End MyApplications.

(** ** The job-details screen: applying *)
Module JobDetailsApply.

(** [{ ...j, hasApplied: v }]. *)
Definition with_hasApplied (v : bool) (j : JobWithDetails) : JobWithDetails :=
  {| id := id j; title := title j; isSaved := isSaved j; hasApplied := v |}.

(** A [handleApply] call suspended at [submitApplication]: the [job] it
    closed over and the request body [{ coverLetter, jobId }]. *)
Record ApplyCall := {
  apply_job : JobWithDetails;
  data_coverLetter : string;
  data_jobId : string
}.

(** The details screen with its apply form: the part already modelled
    (job, alerts, pending save calls) and the apply state. *)
Record Screen := {
  base : JobDetails.Screen;
  isApplying : bool;
  coverLetter : string;
  showApplyModal : bool;
  applies : list ApplyCall
}.

Definition set_base (v : JobDetails.Screen) (s : Screen) : Screen :=
  {| base := v; isApplying := isApplying s; coverLetter := coverLetter s;
     showApplyModal := showApplyModal s; applies := applies s |}.
Definition setIsApplying (v : bool) (s : Screen) : Screen :=
  {| base := base s; isApplying := v; coverLetter := coverLetter s;
     showApplyModal := showApplyModal s; applies := applies s |}.
Definition setShowApplyModal (v : bool) (s : Screen) : Screen :=
  {| base := base s; isApplying := isApplying s; coverLetter := coverLetter s;
     showApplyModal := v; applies := applies s |}.
Definition set_applies (v : list ApplyCall) (s : Screen) : Screen :=
  {| base := base s; isApplying := isApplying s; coverLetter := coverLetter s;
     showApplyModal := showApplyModal s; applies := v |}.

(** The save handler of the details screen, on the full state. *)
Definition handleSaveJob_start (s : Screen) : Screen :=
  set_base (JobDetails.handleSaveJob_start (base s)) s.
Definition handleSaveJob_resume (c : JobDetails.SaveCall) (r : Settled unit)
  (s : Screen) : Screen :=
  set_base (JobDetails.handleSaveJob_resume c r (base s)) s.

(** [handleApply()] up to its [await]. *)
Definition handleApply_start (s : Screen) : Screen :=
  match JobDetails.job (base s) with
  | None => s
  | Some j =>
      set_applies
        (applies s
         ++ [{| apply_job := j; data_coverLetter := coverLetter s;
                data_jobId := id j |}])
        (setIsApplying true s)
  end.

(** [handleApply] from its [await] on. *)
Definition handleApply_resume (c : ApplyCall) (r : Settled unit) (s : Screen)
  : Screen :=
  let s1 :=
    match r with
    | Fulfilled _ =>
        set_base
          (JobDetails.setJob (Some (with_hasApplied true (apply_job c)))
             (JobDetails.alert "Success"
                "Application submitted successfully!" (base s))) s
    | Rejected e =>
        set_base
          (JobDetails.alert "Error"
             (or_else (data_error e) "Failed to submit application")
             (base s)) s
    end in
  setShowApplyModal false (setIsApplying false s1).

End JobDetailsApply.

(** ** A concrete user type for the scenarios

    A user is its role name; it is serialised with a one-letter tag. *)
Module Demo.

Definition role (u : string) : string := u.

Definition JSON_stringify (u : string) : string := "u" +:+ u.

Definition JSON_parse (v : string) : option (option string) :=
  match v with
  | String c rest =>
      if bool_decide (String c EmptyString = "u") then Some (Some rest)
      else None
  | EmptyString => None
  end.

(** The payload of a successful login as a job seeker. *)
Definition seeker_login : LoginResponse.t string :=
  {| LoginResponse.token := "tok"; LoginResponse.user := "JOB_SEEKER" |}.

(** A restored job-seeker session. *)
Definition seeker_session : AuthContext.State string :=
  {| AuthContext.user := Some "JOB_SEEKER";
     AuthContext.userRole := Some "JOB_SEEKER";
     AuthContext.isLoading := false;
     AuthContext.token := Some "tok" |}.

(** A storage whose [userData] is not valid JSON. *)
Definition corrupt_session : gmap string string :=
  AsyncStorage.setItem "userData" "{"
    (AsyncStorage.setItem "userRole" "JOB_SEEKER"
      (AsyncStorage.setItem "authToken" "tok" ∅)).

End Demo.

(** ** Concrete data for the my-applications scenarios

    String primitives that agree with the JavaScript ones on lower-case
    text without surrounding blanks. *)
Module DemoApplications.
Import MyApplications.

Definition toLowerCase (v : string) : string := v.
Definition trim (v : string) : string := v.
Definition includes (v q : string) : bool :=
  match String.index 0 q v with Some _ => true | None => false end.




End DemoApplications.

(** The details screen showing the unsaved job [j1] with the apply form
    open. *)
Module DemoDetails.

Definition j1 : JobWithDetails :=
  {| id := "j1"; title := "Engineer"; isSaved := false; hasApplied := false |}.

Definition form_open : JobDetailsApply.Screen :=
  {| JobDetailsApply.base :=
       {| JobDetails.job := Some j1; JobDetails.alerts := [];
          JobDetails.saves := [] |};
     JobDetailsApply.isApplying := false;
     JobDetailsApply.coverLetter := "Dear team";
     JobDetailsApply.showApplyModal := true;
     JobDetailsApply.applies := [] |}.

End DemoDetails.

(** * Properties *)

(** ** The 401 handler and the persisted session *)

(** The interceptor never writes the [userData] key, whatever the status. *)
Lemma response_rejected_keeps_userData (e : AxiosError) (st : gmap string string) :
  (Api.response_rejected e st).1 !! "userData" = st !! "userData".
Proof.
  unfold Api.response_rejected, AsyncStorage.removeItem; simpl.
  case_bool_decide; [|done].
  by rewrite !lookup_delete_ne by done.
Qed.

(** On a 401 the token and the role are gone afterwards. *)
Lemma response_rejected_401_clears_token_role (e : AxiosError)
  (st : gmap string string) :
  status e = Some 401 →
  (Api.response_rejected e st).1 !! "authToken" = None
  ∧ (Api.response_rejected e st).1 !! "userRole" = None.
Proof.
  intros He. unfold Api.response_rejected, AsyncStorage.removeItem; simpl.
  rewrite bool_decide_eq_true_2 by done.
  split; [by rewrite lookup_delete_ne, lookup_delete_eq by done
         | by rewrite lookup_delete_eq].
Qed.

(** The sibling path: [logout] removes all three keys. *)
Lemma logout_clears_all {User} (st : gmap string string)
  (s : AuthContext.State User) :
  let st' := (AuthContext.logout st s).1 in
  st' !! "authToken" = None ∧ st' !! "userRole" = None
  ∧ st' !! "userData" = None.
Proof.
  unfold AuthContext.logout, AsyncStorage.removeItem; simpl.
  repeat split.
  - by rewrite !lookup_delete_ne, lookup_delete_eq by done.
  - by rewrite lookup_delete_ne, lookup_delete_eq by done.
  - by rewrite lookup_delete_eq.
Qed.

(** C1 (evaluation at the failing input): with a complete session persisted,
    a 401 response leaves the storage with [authToken] and [userRole] removed
    and [userData] still present, and the error is re-raised: the persisted
    session is cleared only in part. *)
Theorem interceptor_401_leaves_userData :
  let r := Api.response_rejected (Scenario.http_error 401)
             Scenario.full_session in
  r.1 !! "authToken" = None
  ∧ r.1 !! "userRole" = None
  ∧ r.1 !! "userData" = Some "{}"
  ∧ r.2 = Rejected (Scenario.http_error 401).
Proof.
  cbv zeta.
  destruct (response_rejected_401_clears_token_role
              (Scenario.http_error 401) Scenario.full_session) as [Ht Hr];
    [done|].
  rewrite Ht, Hr, response_rejected_keeps_userData.
  repeat split.
Qed.

(** ** Session restore at app start *)

Section Restore.

Context {User : Type} (JSON_parse : string → option (option User)).

Lemma truthy_Some (o : option string) : truthy o = true → is_Some o.
Proof. destruct o; [eauto | discriminate]. Qed.

(** When the guard of [checkAuthStatus] fails, only [isLoading] changes. *)
Lemma checkAuthStatus_guard_false (st : gmap string string)
  (s : AuthContext.State User) :
  truthy (st !! "authToken") && truthy (st !! "userRole")
    && truthy (st !! "userData") = false →
  AuthContext.checkAuthStatus JSON_parse st s
  = AuthContext.setIsLoading false s.
Proof.
  intros Hg. unfold AuthContext.checkAuthStatus, AsyncStorage.getItem.
  by rewrite Hg.
Qed.

(** C10: session restore is all-or-nothing with respect to the three stored
    fields.  Starting from the initial in-memory state, (1) if any of
    [authToken], [userRole], [userData] is missing from storage then after
    [checkAuthStatus] the token, the role and the user are all null and
    [isAuthenticated] is false; (2) if any of the three in-memory fields is
    set afterwards, all three keys were present in storage. *)
Theorem checkAuthStatus_all_or_nothing (st : gmap string string) :
  let s' := AuthContext.checkAuthStatus JSON_parse st AuthContext.initial in
  (st !! "authToken" = None ∨ st !! "userRole" = None
   ∨ st !! "userData" = None →
   AuthContext.token s' = None ∧ AuthContext.userRole s' = None
   ∧ AuthContext.user s' = None ∧ AuthContext.isAuthenticated s' = false)
  ∧ (AuthContext.token s' ≠ None ∨ AuthContext.userRole s' ≠ None
     ∨ AuthContext.user s' ≠ None →
     is_Some (st !! "authToken") ∧ is_Some (st !! "userRole")
     ∧ is_Some (st !! "userData")).
Proof.
  cbv zeta.
  destruct (truthy (st !! "authToken") && truthy (st !! "userRole")
            && truthy (st !! "userData")) eqn:Hg.
  - apply andb_true_iff in Hg as [Hg Hu].
    apply andb_true_iff in Hg as [Ht Hr].
    apply truthy_Some in Ht, Hr, Hu.
    split; [|done].
    intros [H|[H|H]]; rewrite H in *;
      [destruct Ht | destruct Hr | destruct Hu]; discriminate.
  - rewrite checkAuthStatus_guard_false by done. simpl.
    split; [done|]. intros [H|[H|H]]; done.
Qed.

End Restore.

(** A storage that lost its token and role (as a 401 leaves it) restores
    nothing. *)
Lemma checkAuthStatus_all_or_nothing_witness :
  let s' := AuthContext.checkAuthStatus (User := string) (λ v, Some (Some v))
              Scenario.user_only AuthContext.initial in
  Scenario.user_only !! "authToken" = None
  ∧ AuthContext.token s' = None ∧ AuthContext.userRole s' = None
  ∧ AuthContext.user s' = None ∧ AuthContext.isAuthenticated s' = false.
Proof.
  assert (Hm : Scenario.user_only !! "authToken" = None) by reflexivity.
  split; [exact Hm|].
  apply (checkAuthStatus_all_or_nothing (User := string)
           (λ v, Some (Some v)) Scenario.user_only).
  left. exact Hm.
Defined.

(** ** The browse-jobs screen *)

Import FindJobs.

(** *** What a settling fetch can and cannot write *)

Lemma loadJobs_resume_filters (c : FetchCall) r (s : Screen) :
  filters (loadJobs_resume c r s) = filters s.
Proof.
  destruct r as [data|e]; simpl; [|done].
  unfold loadJobs_fulfilled.
  destruct (data ≫= body_jobs); [|done].
  destruct (data ≫= body_pagination);
    by destruct (page_is_1 (call_filters c) || call_isRefresh c).
Qed.

Lemma loadJobs_resume_idle (c : FetchCall) r (s : Screen) :
  idle (loadJobs_resume c r s).
Proof. by unfold idle. Qed.

Lemma loadJobs_resume_rejected (c : FetchCall) (e : AxiosError) (s : Screen) :
  let s' := loadJobs_resume c (Rejected e) s in
  jobs s' = jobs s
  ∧ filters s' = filters s
  ∧ pagination s' = pagination s
  ∧ alerts s'
    = alerts s ++ [("Error", or_else (data_error e) "Failed to load jobs")]
  ∧ fetches s' = fetches s.
Proof. done. Qed.

(** A fulfilled fetch with a jobs array: a page-1 or refresh call replaces
    the items, any other call appends the whole page. *)
Lemma loadJobs_resume_jobs (c : FetchCall) (b : JobsBody)
  (newJobs : list JobWithDetails) (s : Screen) :
  body_jobs b = Some newJobs →
  jobs (loadJobs_resume c (Fulfilled (Some b)) s)
  = if page_is_1 (call_filters c) || call_isRefresh c
    then newJobs else jobs s ++ newJobs.
Proof.
  intros Hb. simpl. unfold loadJobs_fulfilled. simpl. rewrite Hb.
  destruct (body_pagination b);
    by destruct (page_is_1 (call_filters c) || call_isRefresh c).
Qed.

(** The fetch issued last is found at the end of the pending calls. *)
Lemma loadJobs_start_pending (isRefresh : bool) (f : JobFilters) (s : Screen) :
  fetches (loadJobs_start isRefresh f s) !! length (fetches s)
  = Some {| call_filters := f; call_isRefresh := isRefresh |}
  ∧ delete (length (fetches s)) (fetches (loadJobs_start isRefresh f s))
    = fetches s.
Proof.
  assert (Hf : fetches (loadJobs_start isRefresh f s)
               = fetches s
                 ++ [{| call_filters := f; call_isRefresh := isRefresh |}]).
  { unfold loadJobs_start.
    by destruct isRefresh; [|destruct (page_is_1 f)]. }
  rewrite Hf. split.
  - by rewrite lookup_app_r, Nat.sub_diag.
  - rewrite delete_middle. by rewrite app_nil_r.
Qed.

Lemma loadJobs_start_frame (isRefresh : bool) (f : JobFilters) (s : Screen) :
  let s' := loadJobs_start isRefresh f s in
  jobs s' = jobs s ∧ filters s' = filters s ∧ pagination s' = pagination s
  ∧ alerts s' = alerts s ∧ saves s' = saves s.
Proof.
  unfold loadJobs_start.
  by destruct isRefresh; [|destruct (page_is_1 f)].
Qed.

(** *** The page of the query is always a positive number *)

Lemma page_or_1_ok (f : JobFilters) (p : Z) :
  page f = Some p → 1 ≤ p → page_or_1 f = p.
Proof.
  intros Hp Hle. unfold page_or_1. rewrite Hp.
  case_bool_decide; [lia | done].
Qed.

Lemma useEffect_filters_filters (s : Screen) :
  filters (useEffect_filters s) = filters s.
Proof. apply loadJobs_start_frame. Qed.

Lemma handleSaveJob_start_filters (jobId : string) (s : Screen) :
  filters (handleSaveJob_start jobId s) = filters s.
Proof. unfold handleSaveJob_start. by destruct (find_job jobId (jobs s)). Qed.

Lemma handleSaveJob_resume_filters (c : SaveCall) r (s : Screen) :
  filters (handleSaveJob_resume c r s) = filters s.
Proof. by destruct r. Qed.

Lemma step_page_ok (e : Event) (s s' : Screen) :
  step e s = Some s' → page_ok (filters s) → page_ok (filters s').
Proof.
  unfold step. destruct (enabled e s); [|done].
  intros Hs [p [Hp Hle]].
  destruct e; simpl in Hs;
    repeat match type of Hs with
    | context [?l !! ?n] => destruct (l !! n); simpl in Hs; [|done]
    end;
    injection Hs as <-;
    rewrite ?loadJobs_resume_filters, ?handleSaveJob_resume_filters,
      ?handleSaveJob_start_filters;
    try (by exists p);
    try (unfold handleSearch, handleRefresh, handleApplyFilters,
           handleClearFilters, removeLocationChip, removeEmploymentTypeChip,
           removeExperienceLevelChip;
         rewrite useEffect_filters_filters; by exists 1).
  unfold handleLoadMore.
  destruct (negb _ && _); [|by exists p].
  rewrite useEffect_filters_filters. simpl.
  exists (page_or_1 (filters s) + 1). split; [done|].
  rewrite (page_or_1_ok _ p) by done. lia.
Qed.

Lemma exec_page_ok (evs : list Event) (s s' : Screen) :
  exec evs s = Some s' → page_ok (filters s) → page_ok (filters s').
Proof.
  revert s. induction evs as [|e evs IH]; intros s; simpl.
  - by intros [= <-].
  - destruct (step e s) as [s1|] eqn:Hs; [|done]. simpl.
    intros He Hok. eapply IH; [done|]. by eapply step_page_ok.
Qed.

Lemma reachable_page_ok (s : Screen) :
  reachable s → page_ok (filters s).
Proof.
  intros [evs He]. eapply exec_page_ok; [done|]. by exists 1.
Qed.

Lemma reachable_after (evs : list Event) :
  is_Some (exec evs mounted) → reachable (Scenario.after evs).
Proof.
  intros [s Hs]. exists evs. unfold Scenario.after. by rewrite Hs.
Qed.

(** *** Filter changes *)

Lemma useEffect_filters_resets (s : Screen) :
  page (filters s) = Some 1 →
  page (filters (useEffect_filters s)) = Some 1
  ∧ fetches (useEffect_filters s)
    = fetches s
      ++ [{| call_filters := filters (useEffect_filters s);
             call_isRefresh := false |}].
Proof.
  intros Hp. rewrite useEffect_filters_filters. split; [done|].
  unfold useEffect_filters, loadJobs_start, page_is_1.
  by rewrite bool_decide_eq_true_2.
Qed.

(** C7: applying the filter modal, submitting a search and removing any of the
    three filter chips (and clearing all filters) each leave the query on
    page 1, whatever the page was before, and the fetch they trigger is issued
    for that page-1 query. *)
Theorem filter_change_resets_page (s : Screen) (newFilters : JobFilters) :
  resets_page (handleApplyFilters newFilters) s
  ∧ resets_page handleSearch s
  ∧ resets_page removeLocationChip s
  ∧ resets_page removeEmploymentTypeChip s
  ∧ resets_page removeExperienceLevelChip s
  ∧ resets_page handleClearFilters s.
Proof.
  unfold resets_page, handleApplyFilters, handleSearch, removeLocationChip,
    removeEmploymentTypeChip, removeExperienceLevelChip, handleClearFilters.
  repeat split; by apply useEffect_filters_resets.
Qed.

(** *** Load more *)

(** C8: in every reachable state, [handleLoadMore] changes nothing (no state
    cell, no new fetch) when [isLoadingMore] is already true or
    [pagination.page >= pagination.totalPages]; otherwise it moves the query
    from page [p] to page [p + 1] and issues one fetch for that query, which
    raises [isLoadingMore]. *)
Theorem handleLoadMore_guard (s : Screen) :
  reachable s →
  (isLoadingMore s = true
   ∨ Pagination.totalPages (pagination s) ≤ Pagination.page (pagination s) →
   handleLoadMore s = s)
  ∧ (isLoadingMore s = false →
     Pagination.page (pagination s) < Pagination.totalPages (pagination s) →
     ∃ p, page (filters s) = Some p
          ∧ page (filters (handleLoadMore s)) = Some (p + 1)
          ∧ fetches (handleLoadMore s)
            = fetches s
              ++ [{| call_filters := with_page (Some (p + 1)) (filters s);
                     call_isRefresh := false |}]
          ∧ isLoadingMore (handleLoadMore s) = true).
Proof.
  intros Hr. apply reachable_page_ok in Hr as [p [Hp Hle]].
  unfold handleLoadMore. split.
  - intros [Hm|Hge].
    + by rewrite Hm.
    + rewrite (bool_decide_eq_false_2 (_ < _)) by lia.
      by rewrite andb_false_r.
  - intros Hm Hlt. rewrite Hm, bool_decide_eq_true_2 by done. simpl.
    exists p. rewrite (page_or_1_ok _ p) by done.
    unfold useEffect_filters, loadJobs_start, page_is_1. simpl.
    rewrite bool_decide_eq_false_2 by (intros [= ?]; lia).
    done.
Qed.

Lemma handleLoadMore_guard_witness :
  reachable (Scenario.after Scenario.first_page)
  ∧ page (filters (handleLoadMore (Scenario.after Scenario.first_page)))
    = Some 2.
Proof.
  assert (Hr : reachable (Scenario.after Scenario.first_page))
    by (apply reachable_after; vm_compute; eauto).
  split; [exact Hr|].
  destruct (handleLoadMore_guard _ Hr) as [_ Hgo].
  destruct Hgo as (p & Hp & Hp' & _); [reflexivity | reflexivity |].
  rewrite Hp'. injection Hp as <-. reflexivity.
Defined.

(** *** A failing fetch *)

Lemma handleRefresh_fetches (s : Screen) :
  fetches (handleRefresh s)
  = fetches s
    ++ [{| call_filters := filters s; call_isRefresh := true |};
        {| call_filters := with_page (Some 1) (filters s);
           call_isRefresh := false |}].
Proof.
  unfold handleRefresh, useEffect_filters, loadJobs_start, page_is_1. simpl.
  by rewrite <- app_assoc.
Qed.

Lemma handleRefresh_jobs (s : Screen) : jobs (handleRefresh s) = jobs s.
Proof. done. Qed.

Lemma step_FetchSettles (s : Screen) (n : nat) (c : FetchCall) r :
  fetches s !! n = Some c →
  step (FetchSettles n r) s
  = Some (loadJobs_resume c r (set_fetches (delete n (fetches s)) s)).
Proof. intros H. unfold step. simpl. by rewrite H. Qed.

Lemma step_gesture (e : Event) (s : Screen) :
  enabled e s = true →
  match e with FetchSettles _ _ | SaveSettles _ _ => False | _ => True end →
  step e s
  = Some match e with
         | TypeSearch text => setSearchQuery text s
         | Search => handleSearch s
         | Refresh => handleRefresh s
         | LoadMore => handleLoadMore s
         | OpenFilters => setShowFilters true s
         | CloseFilters => setShowFilters false s
         | ApplyFilters newFilters => handleApplyFilters newFilters s
         | ClearFilters => handleClearFilters s
         | RemoveLocationChip => removeLocationChip s
         | RemoveEmploymentTypeChip => removeEmploymentTypeChip s
         | RemoveExperienceLevelChip => removeExperienceLevelChip s
         | SaveJob jobId => handleSaveJob_start jobId s
         | _ => s
         end.
Proof. intros He Hg. unfold step. rewrite He. by destruct e. Qed.

Lemma exec_cons (e : Event) (evs : list Event) (s s1 : Screen) :
  step e s = Some s1 → exec (e :: evs) s = exec evs s1.
Proof. intros H. simpl. by rewrite H. Qed.

(** Two pending calls, the oldest of which sits at position [n], are both
    rejected. *)
Lemma two_rejections (s1 : Screen) (pre : list FetchCall) (c1 c2 : FetchCall)
  (e1 e2 : AxiosError) :
  fetches s1 = pre ++ [c1; c2] →
  ∃ s', exec [FetchSettles (length pre) (Rejected e1);
              FetchSettles (length pre) (Rejected e2)] s1 = Some s'
        ∧ jobs s' = jobs s1
        ∧ isRefreshing s' = false
        ∧ length (alerts s') = S (S (length (alerts s1)))
        ∧ fetches s' = pre.
Proof.
  intros Hf. eexists. split.
  { erewrite exec_cons
      by (apply step_FetchSettles; rewrite Hf;
          by rewrite lookup_app_r, Nat.sub_diag).
    erewrite exec_cons; [done|].
    apply step_FetchSettles. simpl. rewrite Hf, delete_middle.
    by rewrite lookup_app_r, Nat.sub_diag. }
  simpl. rewrite Hf, !delete_middle, !length_app, app_nil_r. simpl.
  repeat split; lia.
Qed.

(** C6: a fetch that fails leaves the items as they were.  (1) For every
    state and every kind of [loadJobs] call (refresh, page 1, load more):
    starting the call does not touch the items, and when that call is
    rejected the items are still those from before the call, exactly one
    error alert has been added, [isRefreshing] is false and the call is no
    longer pending.  (2) For the whole pull-to-refresh gesture, which issues
    two fetches: when both are rejected the items are those from before the
    gesture and [isRefreshing] is false. *)
Theorem failed_fetch_keeps_items (s : Screen) :
  (∀ isRefresh f e,
     let s1 := loadJobs_start isRefresh f s in
     jobs s1 = jobs s
     ∧ ∃ s2, step (FetchSettles (length (fetches s)) (Rejected e)) s1 = Some s2
             ∧ jobs s2 = jobs s
             ∧ alerts s2
               = alerts s
                 ++ [("Error", or_else (data_error e) "Failed to load jobs")]
             ∧ isRefreshing s2 = false
             ∧ fetches s2 = fetches s)
  ∧ (isLoading s = false →
     ∀ e1 e2,
       ∃ s', exec [Refresh;
                   FetchSettles (length (fetches s)) (Rejected e1);
                   FetchSettles (length (fetches s)) (Rejected e2)] s
             = Some s'
             ∧ jobs s' = jobs s
             ∧ isRefreshing s' = false
             ∧ length (alerts s') = S (S (length (alerts s)))).
Proof.
  split.
  - intros isRefresh f e s1.
    destruct (loadJobs_start_frame isRefresh f s) as (Hj & _ & _ & Ha & _).
    destruct (loadJobs_start_pending isRefresh f s) as [Hl Hd].
    fold s1 in Hj, Ha, Hl, Hd. clearbody s1.
    split; [done|].
    eexists. split; [by apply step_FetchSettles|].
    simpl. by rewrite Hd, Hj, Ha.
  - intros Hl e1 e2.
    destruct (two_rejections (handleRefresh s) _ _ _ e1 e2
                (handleRefresh_fetches s)) as (s' & He & Hj & Hr & Ha & _).
    exists s'. split; [|done].
    rewrite <- He. apply exec_cons.
    rewrite step_gesture; [done | | done]. simpl. by rewrite Hl.
Qed.

Lemma failed_fetch_keeps_items_witness :
  isLoading (Scenario.after Scenario.first_page) = false
  ∧ ∃ s', exec [Refresh; FetchSettles 0 Scenario.network_error;
                FetchSettles 0 Scenario.network_error]
            (Scenario.after Scenario.first_page) = Some s'
          ∧ jobs s' = jobs (Scenario.after Scenario.first_page)
          ∧ isRefreshing s' = false.
Proof.
  split; [reflexivity|].
  destruct (failed_fetch_keeps_items (Scenario.after Scenario.first_page))
    as [_ Hg].
  destruct (Hg eq_refl {| status := None; data_error := None |}
              {| status := None; data_error := None |})
    as (s' & He & Hj & Hr & _).
  exists s'. split; [exact He|]. split; [exact Hj | exact Hr].
Defined.

(** *** Appending a page *)

Lemma loadJobs_resume_fetches (c : FetchCall) r (s : Screen) :
  fetches (loadJobs_resume c r s) = fetches s.
Proof.
  destruct r as [data|e]; simpl; [|done].
  unfold loadJobs_fulfilled.
  destruct (data ≫= body_jobs); [|done].
  destruct (data ≫= body_pagination);
    by destruct (page_is_1 (call_filters c) || call_isRefresh c).
Qed.

(** C2 (counterexample): the second page repeats job [j2] of the first; after
    the load-more the items hold [j2] twice. *)
Lemma overlapping_pages_duplicate_id :
  ids ∘ jobs <$> exec Scenario.overlapping_pages mounted
  = Some ["j1"; "j2"; "j2"; "j3"]
  ∧ ¬ NoDup ["j1"; "j2"; "j2"; "j3"].
Proof.
  split; [reflexivity|].
  intros Hnd. apply NoDup_cons in Hnd as [_ Hnd].
  apply NoDup_cons in Hnd as [Hin _]. apply Hin. left.
Qed.

(** C2 (amended): when the response of a load-more call (a call that is not a
    refresh and whose page is not 1) arrives with a jobs array, the whole
    array is appended after the current items, in order and without any
    filtering by id.  Hence the ids of the result are pairwise distinct
    exactly when those of the items before were, those of the page are, and
    the page shares no id with the items before. *)
Theorem load_more_appends_page (s : Screen) (n : nat) (c : FetchCall)
  (b : JobsBody) (newJobs : list JobWithDetails) :
  fetches s !! n = Some c →
  page_is_1 (call_filters c) = false →
  call_isRefresh c = false →
  body_jobs b = Some newJobs →
  ∃ s', step (FetchSettles n (Fulfilled (Some b))) s = Some s'
        ∧ jobs s' = jobs s ++ newJobs
        ∧ (NoDup (ids (jobs s')) ↔
           NoDup (ids (jobs s)) ∧ NoDup (ids newJobs)
           ∧ ∀ x, x ∈ ids (jobs s) → x ∉ ids newJobs).
Proof.
  intros Hn Hp Hr Hb. eexists. split; [by apply step_FetchSettles|].
  assert (Hj : jobs (loadJobs_resume c (Fulfilled (Some b))
                       (set_fetches (delete n (fetches s)) s))
               = jobs s ++ newJobs).
  { rewrite (loadJobs_resume_jobs _ _ newJobs) by done.
    by rewrite Hp, Hr. }
  split; [done|]. rewrite Hj. unfold ids. rewrite fmap_app, NoDup_app.
  tauto.
Qed.

Lemma load_more_appends_page_witness :
  ∃ s', step (FetchSettles 0
                (Scenario.page_of [Scenario.mkJob "j3" false] 2 2))
          (handleLoadMore (Scenario.after Scenario.first_page)) = Some s'
        ∧ ids (jobs s') = ["j1"; "j2"; "j3"].
Proof.
  destruct (load_more_appends_page
              (handleLoadMore (Scenario.after Scenario.first_page)) 0
              {| call_filters := with_page (Some 2) default_filters;
                 call_isRefresh := false |}
              {| body_jobs := Some [Scenario.mkJob "j3" false];
                 body_pagination :=
                   Some {| Pagination.total := 20; Pagination.page := 2;
                           Pagination.totalPages := 2 |} |}
              [Scenario.mkJob "j3" false])
    as (s' & Hs & Hj & _); [reflexivity..|].
  exists s'. split; [exact Hs|]. rewrite Hj. reflexivity.
Defined.

(** *** Responses arriving out of order *)

(** C3 (counterexample): a load-more for the unfiltered query is pending when
    the Cebu filter is applied; the Cebu page [b1] arrives first and the
    superseded page [a3] after it.  The final items are [b1; a3], not the
    Cebu result [b1]. *)
Lemma superseded_page_is_applied :
  jobs <$> exec Scenario.superseded_load_more mounted
  = Some [Scenario.mkJob "b1" false; Scenario.mkJob "a3" false]
  ∧ jobs <$> exec Scenario.superseded_load_more mounted
    ≠ Some [Scenario.mkJob "b1" false].
Proof. split; [reflexivity | discriminate]. Qed.

(** C3 (amended): no response is discarded.  If a fetch A is still pending
    when a filter change issues the page-1 fetch B, and B's response arrives
    before A's, then once both have arrived the items are A's jobs when A was
    a page-1 or refresh call, and B's jobs followed by A's jobs when A was a
    load-more call: the response that arrives last is applied last. *)
Theorem late_response_is_applied (s : Screen) (i k : nat) (cA cB : FetchCall)
  (bA bB : JobsBody) (jobsA jobsB : list JobWithDetails) :
  fetches s !! i = Some cA →
  fetches s !! k = Some cB →
  (i < k)%nat →
  page_is_1 (call_filters cB) = true →
  body_jobs bA = Some jobsA →
  body_jobs bB = Some jobsB →
  ∃ s', exec [FetchSettles k (Fulfilled (Some bB));
              FetchSettles i (Fulfilled (Some bA))] s = Some s'
        ∧ jobs s'
          = if page_is_1 (call_filters cA) || call_isRefresh cA
            then jobsA else jobsB ++ jobsA.
Proof.
  intros Hi Hk Hik HpB HbA HbB.
  set (s1 := loadJobs_resume cB (Fulfilled (Some bB))
               (set_fetches (delete k (fetches s)) s)).
  assert (Hj1 : jobs s1 = jobsB).
  { unfold s1. rewrite (loadJobs_resume_jobs _ _ jobsB) by done.
    by rewrite HpB. }
  assert (Hi1 : fetches s1 !! i = Some cA).
  { unfold s1. rewrite loadJobs_resume_fetches. simpl.
    by rewrite list_lookup_delete_lt. }
  exists (loadJobs_resume cA (Fulfilled (Some bA))
            (set_fetches (delete i (fetches s1)) s1)).
  split.
  - rewrite (exec_cons _ _ _ s1) by (by apply step_FetchSettles).
    apply (exec_cons _ []). by apply step_FetchSettles.
  - rewrite (loadJobs_resume_jobs _ _ jobsA) by done.
    change (jobs (set_fetches (delete i (fetches s1)) s1)) with (jobs s1).
    by rewrite Hj1.
Qed.

Lemma late_response_is_applied_witness :
  ∃ s', exec [FetchSettles 1 (Scenario.page_of [Scenario.mkJob "b1" false] 1 1);
              FetchSettles 0 (Scenario.page_of [Scenario.mkJob "a3" false] 2 2)]
          (Scenario.after (take 4 Scenario.superseded_load_more)) = Some s'
        ∧ jobs s' = [Scenario.mkJob "b1" false; Scenario.mkJob "a3" false].
Proof.
  destruct (late_response_is_applied
              (Scenario.after (take 4 Scenario.superseded_load_more)) 0 1
              {| call_filters := with_page (Some 2) default_filters;
                 call_isRefresh := false |}
              {| call_filters := with_page (Some 1) Scenario.cebu;
                 call_isRefresh := false |}
              {| body_jobs := Some [Scenario.mkJob "a3" false];
                 body_pagination :=
                   Some {| Pagination.total := 20; Pagination.page := 2;
                           Pagination.totalPages := 2 |} |}
              {| body_jobs := Some [Scenario.mkJob "b1" false];
                 body_pagination :=
                   Some {| Pagination.total := 10; Pagination.page := 1;
                           Pagination.totalPages := 1 |} |}
              [Scenario.mkJob "a3" false] [Scenario.mkJob "b1" false])
    as (s' & Hs & Hj); [reflexivity | reflexivity | lia | reflexivity..|].
  exists s'. split; [exact Hs | exact Hj].
Defined.

(** *** A failing load-more *)

(** When its guard passes on a query at page [p >= 1], [handleLoadMore] sets
    the page to [p + 1] and the effect starts a load-more call for it. *)
Lemma handleLoadMore_fires (s : Screen) (p : Z) :
  isLoadingMore s = false →
  Pagination.page (pagination s) < Pagination.totalPages (pagination s) →
  page (filters s) = Some p →
  1 ≤ p →
  handleLoadMore s
  = loadJobs_start false (with_page (Some (p + 1)) (filters s))
      (setFilters (with_page (Some (p + 1)) (filters s)) s).
Proof.
  intros Hm Hlt Hp Hle. unfold handleLoadMore.
  rewrite Hm, bool_decide_eq_true_2 by done. simpl.
  by rewrite (page_or_1_ok _ p).
Qed.

(** C5 (counterexample): the query is on page 1 when the user scrolls to the
    end; the fetch of page 2 fails; the query is left on page 2. *)
Lemma failed_load_more_page_not_restored :
  page ∘ filters <$> exec (take 1 Scenario.failed_load_more) mounted
  = Some (Some 1)
  ∧ page ∘ filters <$> exec Scenario.failed_load_more mounted
    = Some (Some 2)
  ∧ page ∘ filters <$> exec Scenario.failed_load_more mounted
    ≠ page ∘ filters <$> exec (take 1 Scenario.failed_load_more) mounted.
Proof. split; [reflexivity|]. split; [reflexivity | discriminate]. Qed.

Lemma loadJobs_start_fetches (isRefresh : bool) (f : JobFilters) (s : Screen) :
  fetches (loadJobs_start isRefresh f s)
  = fetches s ++ [{| call_filters := f; call_isRefresh := isRefresh |}].
Proof.
  unfold loadJobs_start. by destruct isRefresh; [|destruct (page_is_1 f)].
Qed.

(** C5 (amended): when a load-more fetch fails, the query keeps the
    incremented page: from a reachable state on page [p] whose guard passes,
    a load-more followed by the rejection of its fetch leaves the query on
    page [p + 1], with the items and the pagination block unchanged and all
    three flags false; one error alert has been added and the failed fetch
    is no longer pending.  Since the guard still passes, a further load-more
    moves the query to page [p + 2] and issues one fetch, for that page. *)
Theorem failed_load_more_keeps_page (s : Screen) (p : Z) (e : AxiosError) :
  reachable s →
  isLoading s = false →
  isLoadingMore s = false →
  Pagination.page (pagination s) < Pagination.totalPages (pagination s) →
  page (filters s) = Some p →
  ∃ s', exec [LoadMore; FetchSettles (length (fetches s)) (Rejected e)] s
        = Some s'
        ∧ page (filters s') = Some (p + 1)
        ∧ jobs s' = jobs s
        ∧ pagination s' = pagination s
        ∧ idle s'
        ∧ page (filters (handleLoadMore s')) = Some (p + 2)
        ∧ alerts s'
          = alerts s
            ++ [("Error", or_else (data_error e) "Failed to load jobs")]
        ∧ fetches s' = fetches s
        ∧ fetches (handleLoadMore s')
          = fetches s
            ++ [{| call_filters := with_page (Some (p + 2)) (filters s');
                   call_isRefresh := false |}].
Proof.
  intros Hr Hl Hm Hlt Hp.
  apply reachable_page_ok in Hr as (p' & Hp' & Hle).
  rewrite Hp in Hp'. injection Hp' as <-.
  pose proof (handleLoadMore_fires s p Hm Hlt Hp Hle) as Hfire.
  set (f' := with_page (Some (p + 1)) (filters s)) in *.
  destruct (loadJobs_start_pending false f' (setFilters f' s)) as [Hpend Hdel].
  destruct (loadJobs_start_frame false f' (setFilters f' s))
    as (Hj & Hf & Hpg & Ha & _).
  rewrite <- Hfire in Hpend, Hdel, Hj, Hf, Hpg, Ha.
  simpl in Hpend, Hdel, Hj, Hf, Hpg, Ha.
  remember (handleLoadMore s) as s1 eqn:Hs1.
  set (s' := loadJobs_resume
               {| call_filters := f'; call_isRefresh := false |} (Rejected e)
               (set_fetches (delete (length (fetches s)) (fetches s1)) s1)).
  assert (Hs' : jobs s' = jobs s ∧ filters s' = f'
                ∧ pagination s' = pagination s ∧ isLoadingMore s' = false
                ∧ alerts s'
                  = alerts s
                    ++ [("Error",
                         or_else (data_error e) "Failed to load jobs")]
                ∧ fetches s' = fetches s).
  { unfold s'. simpl. by rewrite Hj, Hf, Hpg, Ha, Hdel. }
  destruct Hs' as (Hj' & Hf' & Hpg' & Hm' & Ha' & Hfe').
  assert (Hp1 : page (filters s') = Some (p + 1)) by (by rewrite Hf').
  assert (Hlt' : Pagination.page (pagination s')
                 < Pagination.totalPages (pagination s'))
    by (by rewrite Hpg').
  pose proof (handleLoadMore_fires s' (p + 1) Hm' Hlt' Hp1 ltac:(lia))
    as Hfire2.
  replace (p + 1 + 1) with (p + 2) in Hfire2 by lia.
  exists s'. split.
  { rewrite (exec_cons _ _ _ s1).
    - apply (exec_cons _ []). by apply step_FetchSettles.
    - rewrite step_gesture; [by rewrite Hs1 | simpl; by rewrite Hl | done]. }
  split; [done|]. split; [done|]. split; [done|].
  split; [apply loadJobs_resume_idle|].
  clearbody s'.
  rewrite Hfire2, loadJobs_start_fetches.
  destruct (loadJobs_start_frame false
              (with_page (Some (p + 2)) (filters s'))
              (setFilters (with_page (Some (p + 2)) (filters s')) s'))
    as (_ & Hf2 & _).
  rewrite Hf2.
  change (fetches (setFilters (with_page (Some (p + 2)) (filters s')) s'))
    with (fetches s').
  rewrite Hfe'. repeat split; done.
Qed.

Lemma failed_load_more_keeps_page_witness :
  ∃ s', exec [LoadMore; FetchSettles 0 Scenario.network_error]
          (Scenario.after Scenario.first_page) = Some s'
        ∧ page (filters s') = Some 2
        ∧ page (filters (handleLoadMore s')) = Some 3.
Proof.
  assert (Hr : reachable (Scenario.after Scenario.first_page))
    by (apply reachable_after; vm_compute; eauto).
  destruct (failed_load_more_keeps_page
              (Scenario.after Scenario.first_page) 1
              {| status := None; data_error := None |} Hr)
    as (s' & Hs & Hp & _ & _ & _ & Hp2 & _); [reflexivity..|].
  exists s'. split; [exact Hs|]. split; [exact Hp | exact Hp2].
Defined.

(** *** The three loading flags *)

(** C9 (counterexample): once the first page has arrived, a pull-to-refresh
    raises [isRefreshing] (its own [loadJobs(true)]) and [isLoading] (the
    effect's [loadJobs()] for the new filters object) together.  Likewise a
    filter applied while a load-more is pending has [isLoading] and
    [isLoadingMore] up together. *)
Lemma pull_to_refresh_raises_two_flags :
  (λ s, (isLoading s, isRefreshing s, isLoadingMore s))
    <$> exec Scenario.pull_to_refresh mounted
  = Some (true, true, false)
  ∧ (λ s, (isLoading s, isRefreshing s, isLoadingMore s))
      <$> exec (take 4 Scenario.superseded_load_more) mounted
    = Some (true, false, true)
  ∧ ¬ (∀ s, reachable s → (flags_up s ≤ 1)%nat).
Proof.
  split; [reflexivity|]. split; [reflexivity|].
  intros H.
  assert (Hr : reachable (Scenario.after Scenario.pull_to_refresh))
    by (apply reachable_after; vm_compute; eauto).
  apply H in Hr. vm_compute in Hr. lia.
Qed.

Lemma loadJobs_start_bounded (isRefresh : bool) (f : JobFilters) (s : Screen) :
  (flags_up s ≤ length (fetches s))%nat →
  (flags_up (loadJobs_start isRefresh f s)
   ≤ length (fetches (loadJobs_start isRefresh f s)))%nat.
Proof.
  rewrite loadJobs_start_fetches, length_app. simpl.
  unfold loadJobs_start, flags_up.
  destruct isRefresh; [|destruct (page_is_1 f)]; simpl;
    destruct (isLoading s), (isRefreshing s), (isLoadingMore s); simpl; lia.
Qed.

Lemma step_flags_bounded (e : Event) (s s' : Screen) :
  step e s = Some s' →
  (flags_up s ≤ length (fetches s))%nat →
  (flags_up s' ≤ length (fetches s'))%nat.
Proof.
  unfold step. destruct (enabled e s); [|done].
  intros Hs Hinv.
  destruct e; simpl in Hs;
    repeat match type of Hs with
    | context [?l !! ?n] => destruct (l !! n); simpl in Hs; [|done]
    end;
    injection Hs as <-;
    try done;
    try (by apply loadJobs_start_bounded).
  - unfold handleRefresh, useEffect_filters.
    apply loadJobs_start_bounded.
    by apply (loadJobs_start_bounded true (filters s) s).
  - unfold handleLoadMore. destruct (negb _ && _); [|done].
    by apply loadJobs_start_bounded.
  - unfold handleSaveJob_start. by destruct (find_job jobId (jobs s)).
  - change (flags_up (loadJobs_resume f r
                        (set_fetches (delete n (fetches s)) s)))
      with 0%nat. lia.
  - by destruct r.
Qed.

Lemma exec_flags_bounded (evs : list Event) (s s' : Screen) :
  exec evs s = Some s' →
  (flags_up s ≤ length (fetches s))%nat →
  (flags_up s' ≤ length (fetches s'))%nat.
Proof.
  revert s. induction evs as [|e evs IH]; intros s; simpl.
  - by intros [= <-].
  - destruct (step e s) as [s1|] eqn:Hs; [|done]. simpl.
    intros He Hinv. eapply IH; [done|]. by eapply step_flags_bounded.
Qed.

(** C9 (amended): in every reachable state of the list screen's controller,
    for every interleaving of gestures and responses, the number of flags
    among [isLoading], [isRefreshing], [isLoadingMore] that are true is at
    most the number of fetches still pending.  Hence with no fetch pending
    all three are false (idle), and whenever at most one fetch is pending at
    most one flag is true.  A [loadJobs] call started from idle raises
    exactly one flag, chosen by the kind of call ([isRefreshing] for a
    refresh call, [isLoading] for a page-1 call, [isLoadingMore] for any
    other), and whenever a fetch settles, with either outcome, all three
    flags are false. *)
Theorem flags_bounded_by_pending_fetches (s : Screen) :
  reachable s →
  (flags_up s ≤ length (fetches s))%nat
  ∧ (fetches s = [] → idle s)
  ∧ (length (fetches s) ≤ 1 → flags_up s ≤ 1)%nat
  ∧ (idle s →
     ∀ isRefresh f,
       let s1 := loadJobs_start isRefresh f s in
       flags_up s1 = 1%nat
       ∧ isRefreshing s1 = isRefresh
       ∧ isLoading s1 = negb isRefresh && page_is_1 f
       ∧ isLoadingMore s1 = negb isRefresh && negb (page_is_1 f))
  ∧ ∀ c r s0, flags_up (loadJobs_resume c r s0) = 0%nat.
Proof.
  intros [evs He].
  assert (Hb : (flags_up s ≤ length (fetches s))%nat).
  { eapply exec_flags_bounded; [exact He|]. vm_compute. lia. }
  split; [exact Hb|]. split; [|split; [|split]].
  - intros Hnil. rewrite Hnil in Hb. simpl in Hb.
    unfold flags_up in Hb. unfold idle.
    destruct (isLoading s), (isRefreshing s), (isLoadingMore s);
      simpl in Hb; try lia; done.
  - lia.
  - intros (Hl & Hr & Hm) isRefresh f. unfold loadJobs_start, flags_up.
    destruct isRefresh; [|destruct (page_is_1 f)]; simpl;
      rewrite ?Hl, ?Hr, ?Hm; done.
  - done.
Qed.

Lemma flags_bounded_by_pending_fetches_witness :
  reachable (Scenario.after Scenario.first_page)
  ∧ idle (Scenario.after Scenario.first_page).
Proof.
  assert (Hr : reachable (Scenario.after Scenario.first_page))
    by (apply reachable_after; vm_compute; eauto).
  split; [exact Hr|].
  destruct (flags_bounded_by_pending_fetches _ Hr) as (_ & Hidle & _).
  apply Hidle. reflexivity.
Defined.

(** *** Saving and unsaving a job *)

(** The job that [find] returns for an id is the one [toggle_saved] flips. *)
Lemma find_job_toggle_saved (jobId : string) (l : list JobWithDetails) :
  find_job jobId (toggle_saved jobId l)
  = (λ j, with_isSaved (negb (isSaved j)) j) <$> find_job jobId l.
Proof.
  unfold find_job, toggle_saved.
  induction l as [|j l IH]; [done|]. simpl.
  destruct (bool_decide (id j = jobId)) eqn:Hj; simpl; rewrite Hj; [done|].
  exact IH.
Qed.

Lemma step_SaveSettles (s : Screen) (n : nat) (c : SaveCall) r :
  saves s !! n = Some c →
  step (SaveSettles n r) s
  = Some (handleSaveJob_resume c r (set_saves (delete n (saves s)) s)).
Proof. intros H. unfold step. simpl. by rewrite H. Qed.

(** C4 (counterexample): the first page shows [j1] unsaved; right after the
    tap on its bookmark, with the gateway call still pending, the list still
    shows it unsaved. *)
Lemma tap_save_not_flipped_while_pending :
  (λ s, (saved_flag "j1" s, length (saves s)))
    <$> exec (take 1 Scenario.tap_save) mounted
  = Some (Some false, 0%nat)
  ∧ (λ s, (saved_flag "j1" s, length (saves s)))
      <$> exec Scenario.tap_save mounted
    = Some (Some false, 1%nat)
  ∧ saved_flag "j1" <$> exec Scenario.tap_save mounted
    ≠ Some (Some (negb false)).
Proof. split; [reflexivity|]. split; [reflexivity | discriminate]. Qed.

(** C4 (amended): the toggle is applied only after the gateway call has
    succeeded.  On the list screen, for a job shown in the list: starting the
    toggle issues the gateway call ([unsaveJob] if the job is saved,
    [saveJob] otherwise) and leaves the items untouched while it is pending;
    if the call is rejected the items are unchanged, so the saved flag has
    its pre-toggle value, and exactly one error alert is added; if the call
    is fulfilled the saved flag is flipped.  On the details screen, likewise:
    the job is untouched while the call is pending and after a rejection
    (one error alert), and carries the flipped flag after success. *)
Theorem save_toggle_after_success_only (s : Screen) (jobId : string)
  (j : JobWithDetails) (d : JobDetails.Screen) (e : AxiosError) :
  find_job jobId (jobs s) = Some j →
  JobDetails.job d = Some j →
  let s1 := handleSaveJob_start jobId s in
  let d1 := JobDetails.handleSaveJob_start d in
  let n := length (saves s) in
  (jobs s1 = jobs s
   ∧ saves s1
     = saves s ++ [{| save_jobId := jobId; save_unsave := isSaved j |}]
   ∧ (∃ s2, step (SaveSettles n (Rejected e)) s1 = Some s2
            ∧ jobs s2 = jobs s
            ∧ saved_flag jobId s2 = Some (isSaved j)
            ∧ alerts s2
              = alerts s
                ++ [("Error", or_else (data_error e) "Failed to save job")])
   ∧ (∃ s2, step (SaveSettles n (Fulfilled ())) s1 = Some s2
            ∧ saved_flag jobId s2 = Some (negb (isSaved j))))
  ∧ (JobDetails.job d1 = Some j
     ∧ JobDetails.saves d1
       = JobDetails.saves d ++ [{| JobDetails.save_job := j |}]
     ∧ (let d2 := JobDetails.handleSaveJob_resume
                    {| JobDetails.save_job := j |} (Rejected e) d1 in
        JobDetails.job d2 = Some j
        ∧ JobDetails.alerts d2
          = JobDetails.alerts d
            ++ [("Error", or_else (data_error e) "Failed to save job")])
     ∧ JobDetails.job
         (JobDetails.handleSaveJob_resume
            {| JobDetails.save_job := j |} (Fulfilled ()) d1)
       = Some (with_isSaved (negb (isSaved j)) j)).
Proof.
  intros Hfind Hjob s1 d1 n.
  assert (Hs1 : s1 = set_saves
                  (saves s
                   ++ [{| save_jobId := jobId; save_unsave := isSaved j |}]) s).
  { unfold s1, handleSaveJob_start. by rewrite Hfind. }
  assert (Hd1 : d1 = {| JobDetails.job := JobDetails.job d;
                        JobDetails.alerts := JobDetails.alerts d;
                        JobDetails.saves :=
                          JobDetails.saves d
                          ++ [{| JobDetails.save_job := j |}] |}).
  { unfold d1, JobDetails.handleSaveJob_start. by rewrite Hjob. }
  assert (Hpend : saves s1 !! n
                  = Some {| save_jobId := jobId; save_unsave := isSaved j |}).
  { rewrite Hs1. simpl. unfold n. by rewrite lookup_app_r, Nat.sub_diag. }
  clearbody s1 d1. subst s1 d1. split.
  - split; [done|]. split; [done|]. split.
    + eexists. split; [by apply step_SaveSettles|]. simpl.
      unfold saved_flag. simpl. by rewrite Hfind.
    + eexists. split; [by apply step_SaveSettles|].
      unfold saved_flag. simpl.
      by rewrite find_job_toggle_saved, Hfind.
  - simpl. rewrite Hjob. repeat split. by destruct (isSaved j).
Qed.

Lemma save_toggle_after_success_only_witness :
  let s := Scenario.after Scenario.first_page in
  find_job "j1" (jobs s) = Some (Scenario.mkJob "j1" false)
  ∧ jobs (handleSaveJob_start "j1" s) = jobs s.
Proof.
  assert (Hf : find_job "j1" (jobs (Scenario.after Scenario.first_page))
               = Some (Scenario.mkJob "j1" false)) by reflexivity.
  split; [exact Hf|].
  apply (save_toggle_after_success_only
           (Scenario.after Scenario.first_page) "j1"
           (Scenario.mkJob "j1" false)
           {| JobDetails.job := Some (Scenario.mkJob "j1" false);
              JobDetails.alerts := []; JobDetails.saves := [] |}
           {| status := None; data_error := None |} Hf eq_refl).
Defined.

(** ** The session: login, restart, logout, unauthorized responses *)

Section Session.

Context {User : Type} (JSON_parse : string → option (option User))
  (JSON_stringify : User → string) (role : User → string).

(** With three truthy stored values the restore runs: the token and the role
    are set, and the user is whatever [JSON.parse] yields. *)
Lemma checkAuthStatus_guard_true (st : gmap string string) (tok r ud : string)
  (s : AuthContext.State User) :
  st !! "authToken" = Some tok → tok ≠ "" →
  st !! "userRole" = Some r → r ≠ "" →
  st !! "userData" = Some ud → ud ≠ "" →
  AuthContext.checkAuthStatus JSON_parse st s
  = AuthContext.setIsLoading false
      (let s' := AuthContext.setUserRole (Some r)
                   (AuthContext.setToken (Some tok) s) in
       match JSON_parse ud with
       | Some u => AuthContext.setUser u s'
       | None => s'
       end).
Proof.
  intros Ht Htok Hr Hrole Hu Hud.
  unfold AuthContext.checkAuthStatus, AsyncStorage.getItem.
  rewrite Ht, Hr, Hu. simpl.
  by rewrite !bool_decide_eq_true_2 by done.
Qed.

Lemma nothing_restored (st : gmap string string) :
  st !! "authToken" = None ∨ st !! "userRole" = None →
  AuthContext.checkAuthStatus JSON_parse st AuthContext.initial
  = AuthContext.setIsLoading false AuthContext.initial.
Proof.
  intros H. apply checkAuthStatus_guard_false.
  destruct H as [H|H]; rewrite H; simpl; [done|].
  by rewrite andb_false_r.
Qed.

(** What [login] and [register] leave in storage when they succeed. *)
Lemma login_storage (d : LoginResponse.t User) (st : gmap string string)
  (s : AuthContext.State User) :
  let st' := (AuthActions.login JSON_stringify role
                (Fulfilled (Some (LoginResponse.Complete d)))
                st s).1.1 in
  st' !! "authToken" = Some (LoginResponse.token d)
  ∧ st' !! "userRole" = Some (role (LoginResponse.user d))
  ∧ st' !! "userData" = Some (JSON_stringify (LoginResponse.user d)).
Proof.
  simpl. unfold AsyncStorage.setItem.
  repeat split.
  - by rewrite !lookup_insert_ne, lookup_insert_eq by done.
  - by rewrite lookup_insert_ne, lookup_insert_eq by done.
  - by rewrite lookup_insert_eq.
Qed.

Lemma register_storage (d : LoginResponse.t User) (st : gmap string string)
  (s : AuthContext.State User) :
  let st' := (AuthActions.register JSON_stringify role
                (Fulfilled (Some (LoginResponse.Complete d)))
                st s).1.1 in
  st' !! "authToken" = Some (LoginResponse.token d)
  ∧ st' !! "userRole" = Some (role (LoginResponse.user d))
  ∧ st' !! "userData" = Some (JSON_stringify (LoginResponse.user d)).
Proof.
  simpl. unfold AsyncStorage.setItem.
  repeat split.
  - by rewrite !lookup_insert_ne, lookup_insert_eq by done.
  - by rewrite lookup_insert_ne, lookup_insert_eq by done.
  - by rewrite lookup_insert_eq.
Qed.

(** X1: A successful login or registration survives an app restart: when the
    response carries a non-empty token, a non-empty role and a user whose
    serialisation parses back to it, the session that [checkAuthStatus]
    restores from the storage the call left behind has the same token, role
    and user as the in-memory session the call produced, whatever was stored
    or held in memory before. *)
Theorem login_survives_restart (d : LoginResponse.t User)
  (st : gmap string string) (s : AuthContext.State User) :
  JSON_parse (JSON_stringify (LoginResponse.user d))
  = Some (Some (LoginResponse.user d)) →
  LoginResponse.token d ≠ "" →
  role (LoginResponse.user d) ≠ "" →
  JSON_stringify (LoginResponse.user d) ≠ "" →
  ∀ act, act = AuthActions.login JSON_stringify role
         ∨ act = AuthActions.register JSON_stringify role →
  let out := act (Fulfilled (Some (LoginResponse.Complete d))) st s in
  let s2 := AuthContext.checkAuthStatus JSON_parse out.1.1
              AuthContext.initial in
  AuthResult.success out.2 = true
  ∧ AuthContext.token out.1.2 = Some (LoginResponse.token d)
  ∧ AuthContext.token s2 = AuthContext.token out.1.2
  ∧ AuthContext.userRole s2 = AuthContext.userRole out.1.2
  ∧ AuthContext.user s2 = AuthContext.user out.1.2
  ∧ AuthContext.isAuthenticated s2 = true
  ∧ AuthContext.isLoading s2 = false.
Proof.
  intros Hround Htok Hrole Hud act Hact out s2.
  assert (Hst : out.1.1 !! "authToken" = Some (LoginResponse.token d)
                ∧ out.1.1 !! "userRole" = Some (role (LoginResponse.user d))
                ∧ out.1.1 !! "userData"
                  = Some (JSON_stringify (LoginResponse.user d))).
  { destruct Hact as [-> | ->];
      [apply login_storage | apply register_storage]. }
  destruct Hst as (H1 & H2 & H3).
  unfold s2.
  rewrite (checkAuthStatus_guard_true _ _ _ _ AuthContext.initial
             H1 Htok H2 Hrole H3 Hud).
  rewrite Hround.
  unfold AuthContext.isAuthenticated.
  destruct Hact as [-> | ->]; simpl;
    by rewrite bool_decide_eq_true_2 by done.
Qed.


(** X3: After [logout] nothing of the session is left, now or after a restart:
    the in-memory session is unauthenticated with neither role flag set, a
    later [checkAuthStatus] restores nothing from the storage it leaves, the
    request interceptor attaches no token, and, once the initial restore has
    finished, the navigation guard sends every screen outside the auth group
    to the login route. *)
Theorem logout_ends_session (st : gmap string string)
  (s : AuthContext.State User) (segments : list string)
  (config : ApiRequest.Config) :
  AuthContext.isLoading s = false →
  segments !! 0%nat ≠ Some "(auth)" →
  let out := AuthContext.logout st s in
  AuthContext.isAuthenticated out.2 = false
  ∧ AuthActions.isJobSeeker out.2 = false
  ∧ AuthActions.isEmployer out.2 = false
  ∧ AuthContext.checkAuthStatus JSON_parse out.1 AuthContext.initial
    = AuthContext.setIsLoading false AuthContext.initial
  ∧ ApiRequest.request_fulfilled config out.1 = config
  ∧ RootLayout.redirect role (AuthContext.isLoading out.2)
      (AuthContext.user out.2) segments
    = Some "/(auth)/login".
Proof.
  intros Hl Hseg out.
  destruct (logout_clears_all st s) as (Ht & Hr & Hu). fold out in Ht, Hr, Hu.
  split; [done|]. split; [done|]. split; [done|].
  split; [apply nothing_restored; by left|].
  split.
  - unfold ApiRequest.request_fulfilled, AsyncStorage.getItem. by rewrite Ht.
  - unfold RootLayout.redirect. simpl. rewrite Hl.
    by rewrite bool_decide_eq_false_2.
Qed.

(** X4: After a 401 response has passed through the response interceptor, an app
    restart restores no session (the token and the role are gone, even though
    [userData] may still be stored) and later requests carry no bearer token
    added by the request interceptor.  A rejection with any other status, or
    with no response at all, leaves the storage as it was. *)
Theorem unauthorized_ends_persisted_session (e : AxiosError)
  (st : gmap string string) (config : ApiRequest.Config) :
  let st' := (Api.response_rejected e st).1 in
  (status e = Some 401 →
   AuthContext.checkAuthStatus JSON_parse st' AuthContext.initial
   = AuthContext.setIsLoading false AuthContext.initial
   ∧ ApiRequest.request_fulfilled config st' = config)
  ∧ (status e ≠ Some 401 → st' = st).
Proof.
  split.
  - intros He.
    destruct (response_rejected_401_clears_token_role e st He) as [Ht Hr].
    split; [apply nothing_restored; by left|].
    unfold ApiRequest.request_fulfilled, AsyncStorage.getItem. by rewrite Ht.
  - intros He. unfold Api.response_rejected. simpl.
    by rewrite bool_decide_eq_false_2.
Qed.


(** X6: Right after a successful login with a non-empty token, the request
    interceptor sets [Authorization] to ["Bearer "] followed by that token on
    every config that has headers, and leaves every other header as it was; a
    config without headers is passed through unchanged. *)
Theorem bearer_token_after_login (d : LoginResponse.t User)
  (st : gmap string string) (s : AuthContext.State User)
  (h : gmap string string) :
  LoginResponse.token d ≠ "" →
  let st' := (AuthActions.login JSON_stringify role
                (Fulfilled (Some (LoginResponse.Complete d)))
                st s).1.1 in
  (∃ h', ApiRequest.request_fulfilled {| ApiRequest.headers := Some h |} st'
         = {| ApiRequest.headers := Some h' |}
         ∧ h' !! "Authorization" = Some ("Bearer " +:+ LoginResponse.token d)
         ∧ ∀ k, k ≠ "Authorization" → h' !! k = h !! k)
  ∧ ApiRequest.request_fulfilled {| ApiRequest.headers := None |} st'
    = {| ApiRequest.headers := None |}.
Proof.
  intros Htok st'.
  destruct (login_storage d st s) as (Ht & _). fold st' in Ht.
  unfold ApiRequest.request_fulfilled, AsyncStorage.getItem. rewrite Ht. simpl.
  rewrite bool_decide_eq_true_2 by done. split; [|done].
  eexists. split; [done|]. split.
  - by rewrite lookup_insert_eq.
  - intros k Hk. by rewrite lookup_insert_ne.
Qed.

(** X7: A stored session whose [userData] does not parse is restored in part:
    the token and the role are set and [isAuthenticated] is true, but the
    user stays null, so the navigation guard treats the app as signed out and
    sends every screen outside the auth group to the login route. *)
Theorem unparsable_userData_restores_token_only (st : gmap string string)
  (tok r ud : string) (segments : list string) :
  st !! "authToken" = Some tok → tok ≠ "" →
  st !! "userRole" = Some r → r ≠ "" →
  st !! "userData" = Some ud → ud ≠ "" →
  JSON_parse ud = None →
  segments !! 0%nat ≠ Some "(auth)" →
  let s2 := AuthContext.checkAuthStatus JSON_parse st AuthContext.initial in
  AuthContext.token s2 = Some tok
  ∧ AuthContext.userRole s2 = Some r
  ∧ AuthContext.user s2 = None
  ∧ AuthContext.isAuthenticated s2 = true
  ∧ RootLayout.redirect role (AuthContext.isLoading s2)
      (AuthContext.user s2) segments
    = Some "/(auth)/login".
Proof.
  intros Ht Htok Hr Hrole Hu Hud Hparse Hseg s2. unfold s2.
  rewrite (checkAuthStatus_guard_true _ tok r ud) by done.
  rewrite Hparse. simpl. unfold AuthContext.isAuthenticated. simpl.
  rewrite bool_decide_eq_true_2 by done.
  repeat split. unfold RootLayout.redirect.
  by rewrite bool_decide_eq_false_2.
Qed.

(** X8: The navigation guard settles after one hop: whenever it redirects to a
    route, it asks for no further redirect once the router reports that
    route's segments.  It never redirects while the session is still being
    restored, and it never moves a signed-in user whose role is neither
    EMPLOYER nor JOB_SEEKER. *)
Theorem redirect_settles (isLoading : bool) (user : option User)
  (segments : list string) :
  (∀ target,
     RootLayout.redirect role isLoading user segments = Some target →
     RootLayout.redirect role isLoading user (RootLayout.segments_of target)
     = None)
  ∧ RootLayout.redirect role true user segments = None
  ∧ (∀ u, role u ≠ "EMPLOYER" → role u ≠ "JOB_SEEKER" →
          RootLayout.redirect role isLoading (Some u) segments = None).
Proof.
  assert (Ha : RootLayout.segments_of "/(auth)/login" !! 0%nat
               = Some "(auth)") by reflexivity.
  assert (He : RootLayout.segments_of "/(employer)" !! 0%nat
               = Some "(employer)") by reflexivity.
  assert (Hj : RootLayout.segments_of "/(jobseeker)" !! 0%nat
               = Some "(jobseeker)") by reflexivity.
  split; [|split].
  - intros target. unfold RootLayout.redirect.
    destruct isLoading; [done|].
    destruct user as [u|].
    + destruct (decide (role u = "EMPLOYER")) as [Hr|Hr].
      * rewrite !(bool_decide_eq_true_2 _ Hr).
        rewrite !(bool_decide_eq_false_2 (role u = "JOB_SEEKER"))
          by (rewrite Hr; done).
        simpl. destruct (negb _); [|done].
        intros [= <-]. rewrite He. by rewrite bool_decide_eq_true_2.
      * rewrite !(bool_decide_eq_false_2 _ Hr). simpl.
        destruct (decide (role u = "JOB_SEEKER")) as [Hs|Hs].
        -- rewrite !(bool_decide_eq_true_2 _ Hs). simpl.
           destruct (negb _); [|done].
           intros [= <-]. rewrite Hj. by rewrite bool_decide_eq_true_2.
        -- by rewrite !(bool_decide_eq_false_2 _ Hs).
    + destruct (negb _); [|done]. intros [= <-]. rewrite Ha.
      by rewrite bool_decide_eq_true_2.
  - done.
  - intros u Hr Hs. unfold RootLayout.redirect.
    destruct isLoading; [done|].
    by rewrite (bool_decide_eq_false_2 _ Hr), (bool_decide_eq_false_2 _ Hs).
Qed.

End Session.

Lemma login_survives_restart_witness :
  let out := AuthActions.login Demo.JSON_stringify Demo.role
               (Fulfilled (Some (LoginResponse.Complete Demo.seeker_login))) ∅ AuthContext.initial in
  let s2 := AuthContext.checkAuthStatus Demo.JSON_parse out.1.1
              AuthContext.initial in
  LoginResponse.token Demo.seeker_login ≠ ""
  ∧ AuthContext.token s2 = AuthContext.token out.1.2
  ∧ AuthContext.user s2 = AuthContext.user out.1.2.
Proof.
  assert (Ht : LoginResponse.token Demo.seeker_login ≠ "") by done.
  split; [exact Ht|].
  destruct (login_survives_restart Demo.JSON_parse Demo.JSON_stringify
              Demo.role Demo.seeker_login ∅ AuthContext.initial
              eq_refl Ht ltac:(done) ltac:(done)
              (AuthActions.login Demo.JSON_stringify Demo.role)
              (or_introl eq_refl))
    as (_ & _ & H1 & _ & H2 & _).
  split; [exact H1 | exact H2].
Defined.


Lemma logout_ends_session_witness :
  AuthContext.isLoading Demo.seeker_session = false
  ∧ RootLayout.redirect Demo.role
      (AuthContext.isLoading
         (AuthContext.logout Scenario.full_session Demo.seeker_session).2)
      (AuthContext.user
         (AuthContext.logout Scenario.full_session Demo.seeker_session).2)
      ["(jobseeker)"]
    = Some "/(auth)/login".
Proof.
  split; [reflexivity|].
  apply (logout_ends_session Demo.JSON_parse Demo.role Scenario.full_session
           Demo.seeker_session ["(jobseeker)"]
           {| ApiRequest.headers := None |} eq_refl ltac:(done)).
Defined.

Lemma unauthorized_ends_persisted_session_witness :
  status (Scenario.http_error 401) = Some 401
  ∧ AuthContext.checkAuthStatus Demo.JSON_parse
      (Api.response_rejected (Scenario.http_error 401)
         Scenario.full_session).1 AuthContext.initial
    = AuthContext.setIsLoading false AuthContext.initial.
Proof.
  split; [reflexivity|].
  apply (unauthorized_ends_persisted_session Demo.JSON_parse
           (Scenario.http_error 401) Scenario.full_session
           {| ApiRequest.headers := None |}).
  reflexivity.
Defined.


Lemma bearer_token_after_login_witness :
  LoginResponse.token Demo.seeker_login ≠ ""
  ∧ ∃ h', ApiRequest.request_fulfilled {| ApiRequest.headers := Some ∅ |}
            (AuthActions.login Demo.JSON_stringify Demo.role
               (Fulfilled (Some (LoginResponse.Complete Demo.seeker_login))) ∅
               AuthContext.initial).1.1
          = {| ApiRequest.headers := Some h' |}
          ∧ h' !! "Authorization" = Some "Bearer tok".
Proof.
  assert (Ht : LoginResponse.token Demo.seeker_login ≠ "") by done.
  split; [exact Ht|].
  destruct (bearer_token_after_login Demo.JSON_stringify Demo.role
              Demo.seeker_login ∅ AuthContext.initial ∅ Ht)
    as [(h' & Hc & Ha & _) _].
  exists h'. split; [exact Hc | exact Ha].
Defined.

Lemma unparsable_userData_restores_token_only_witness :
  Demo.JSON_parse "{" = None
  ∧ AuthContext.token
      (AuthContext.checkAuthStatus Demo.JSON_parse Demo.corrupt_session
         AuthContext.initial)
    = Some "tok"
  ∧ AuthContext.user
      (AuthContext.checkAuthStatus Demo.JSON_parse Demo.corrupt_session
         AuthContext.initial)
    = None.
Proof.
  split; [reflexivity|].
  destruct (unparsable_userData_restores_token_only Demo.JSON_parse Demo.role
              Demo.corrupt_session "tok" "JOB_SEEKER" "{" ["(jobseeker)"]
              eq_refl ltac:(done) eq_refl ltac:(done) eq_refl ltac:(done)
              eq_refl ltac:(done))
    as (Ht & _ & Hu & _).
  split; [exact Ht | exact Hu].
Defined.

Lemma redirect_settles_witness :
  RootLayout.redirect Demo.role false (Some "EMPLOYER") ["(auth)"; "login"]
  = Some "/(employer)"
  ∧ RootLayout.redirect Demo.role false (Some "EMPLOYER")
      (RootLayout.segments_of "/(employer)")
    = None.
Proof.
  assert (Hr : RootLayout.redirect Demo.role false (Some "EMPLOYER")
                 ["(auth)"; "login"] = Some "/(employer)") by reflexivity.
  split; [exact Hr|].
  destruct (redirect_settles Demo.role false (Some "EMPLOYER")
              ["(auth)"; "login"]) as (H & _).
  exact (H _ Hr).
Defined.

(** ** The browse-jobs screen: further properties *)

(** *** A raised flag always has a fetch that will lower it *)

Lemma handleSaveJob_start_frame (jobId : string) (s : Screen) :
  flags_up (handleSaveJob_start jobId s) = flags_up s
  ∧ fetches (handleSaveJob_start jobId s) = fetches s.
Proof. unfold handleSaveJob_start. by destruct (find_job jobId (jobs s)). Qed.

Lemma handleSaveJob_resume_frame (c : SaveCall) r (s : Screen) :
  flags_up (handleSaveJob_resume c r s) = flags_up s
  ∧ fetches (handleSaveJob_resume c r s) = fetches s.
Proof. by destruct r. Qed.

Lemma loadJobs_start_fetches_nonempty (isRefresh : bool) (f : JobFilters)
  (s : Screen) :
  fetches (loadJobs_start isRefresh f s) ≠ [].
Proof.
  destruct (loadJobs_start_pending isRefresh f s) as [Hl _].
  intros Hnil. by rewrite Hnil in Hl.
Qed.

Lemma step_spinner (e : Event) (s s' : Screen) :
  step e s = Some s' →
  flags_up s = 0%nat ∨ fetches s ≠ [] →
  flags_up s' = 0%nat ∨ fetches s' ≠ [].
Proof.
  unfold step. destruct (enabled e s); [|done].
  intros Hs Hinv.
  destruct e; simpl in Hs;
    repeat match type of Hs with
    | context [?l !! ?n] => destruct (l !! n); simpl in Hs; [|done]
    end;
    injection Hs as <-;
    try done;
    try (right; apply loadJobs_start_fetches_nonempty).
  - unfold handleLoadMore. destruct (negb _ && _); [|done].
    right. apply loadJobs_start_fetches_nonempty.
  - by destruct (handleSaveJob_start_frame jobId s) as [-> ->].
  - by left.
  - destruct (handleSaveJob_resume_frame s0 r
                (set_saves (delete n (saves s)) s)) as [-> ->].
    done.
Qed.

Lemma exec_spinner (evs : list Event) (s s' : Screen) :
  exec evs s = Some s' →
  flags_up s = 0%nat ∨ fetches s ≠ [] →
  flags_up s' = 0%nat ∨ fetches s' ≠ [].
Proof.
  revert s. induction evs as [|e evs IH]; intros s; simpl.
  - by intros [= <-].
  - destruct (step e s) as [s1|] eqn:Hs; [|done]. simpl.
    intros He Hinv. eapply IH; [done|]. by eapply step_spinner.
Qed.

(** X9: In every reachable state of the browse-jobs screen, if any of the three
    loading flags is up then at least one fetch is still pending: since every
    settling fetch lowers all three flags, a spinner can never stay up with
    nothing left to lower it. *)
Theorem raised_flag_has_pending_fetch (s : Screen) :
  reachable s → (0 < flags_up s)%nat → fetches s ≠ [].
Proof.
  intros [evs He] Hup.
  destruct (exec_spinner evs mounted s He) as [H0|Hne];
    [by right | lia | done].
Qed.

Lemma raised_flag_has_pending_fetch_witness :
  reachable (Scenario.after Scenario.pull_to_refresh)
  ∧ fetches (Scenario.after Scenario.pull_to_refresh) ≠ [].
Proof.
  assert (Hr : reachable (Scenario.after Scenario.pull_to_refresh))
    by (apply reachable_after; vm_compute; eauto).
  split; [exact Hr|].
  apply (raised_flag_has_pending_fetch _ Hr). vm_compute. lia.
Defined.

(** *** Malformed success responses *)

(** X10: A fulfilled jobs response that has no [jobs] array changes nothing but
    the flags: items, pagination and alerts stay as they were.  A response
    that has [jobs] but no [pagination] block is applied to the items and
    then reported as a failure: the fallback error alert is shown and the
    pagination block keeps its old value. *)
Theorem malformed_jobs_response (s : Screen) (n : nat) (c : FetchCall)
  (data : option JobsBody) :
  fetches s !! n = Some c →
  ∃ s', step (FetchSettles n (Fulfilled data)) s = Some s'
        ∧ flags_up s' = 0%nat
        ∧ (data ≫= body_jobs = None →
           jobs s' = jobs s ∧ pagination s' = pagination s
           ∧ alerts s' = alerts s)
        ∧ (∀ l, data ≫= body_jobs = Some l →
                data ≫= body_pagination = None →
                jobs s' = (if page_is_1 (call_filters c) || call_isRefresh c
                           then l else jobs s ++ l)
                ∧ pagination s' = pagination s
                ∧ alerts s' = alerts s ++ [("Error", "Failed to load jobs")]).
Proof.
  intros Hn. eexists. split; [by apply step_FetchSettles|].
  split; [done|]. simpl. unfold loadJobs_fulfilled. split.
  - intros Hj. by rewrite Hj.
  - intros l Hj Hp. rewrite Hj, Hp.
    by destruct (page_is_1 (call_filters c) || call_isRefresh c).
Qed.

Lemma malformed_jobs_response_witness :
  ∃ s', step (FetchSettles 0 (Fulfilled None)) mounted = Some s'
        ∧ jobs s' = jobs mounted ∧ alerts s' = [].
Proof.
  destruct (malformed_jobs_response mounted 0
              {| call_filters := default_filters; call_isRefresh := false |}
              None eq_refl)
    as (s' & Hs & _ & Hnone & _).
  destruct (Hnone eq_refl) as (Hj & _ & Ha).
  exists s'. split; [exact Hs|]. split; [exact Hj | exact Ha].
Defined.

Lemma loadJobs_resume_pagination (c : FetchCall) (b : JobsBody)
  (l : list JobWithDetails) (p : Pagination.t) (s : Screen) :
  body_jobs b = Some l →
  body_pagination b = Some p →
  pagination (loadJobs_resume c (Fulfilled (Some b)) s) = p.
Proof.
  intros Hl Hp. simpl. unfold loadJobs_fulfilled. simpl. rewrite Hl, Hp.
  by destruct (page_is_1 (call_filters c) || call_isRefresh c).
Qed.

(** *** A filter change replaces the list *)

(** X11: After any filter change (applying the modal, submitting a search,
    removing a chip, clearing all filters), when the fetch that the change
    issued is fulfilled with a jobs array and a pagination block, the items
    are exactly that array (nothing of the previous list survives), the
    pagination block is the response's, and all flags are down. *)
Theorem filter_change_replaces_items (s : Screen) (newFilters : JobFilters)
  (h : Screen → Screen) (b : JobsBody) (l : list JobWithDetails)
  (p : Pagination.t) :
  h ∈ [handleApplyFilters newFilters; handleSearch; removeLocationChip;
       removeEmploymentTypeChip; removeExperienceLevelChip;
       handleClearFilters] →
  body_jobs b = Some l →
  body_pagination b = Some p →
  ∃ s', step (FetchSettles (length (fetches s)) (Fulfilled (Some b))) (h s)
        = Some s'
        ∧ jobs s' = l
        ∧ pagination s' = p
        ∧ page (filters s') = Some 1
        ∧ flags_up s' = 0%nat
        ∧ fetches s' = fetches s.
Proof.
  intros Hh Hl Hp.
  assert (Hres : resets_page h s).
  { unfold resets_page.
    repeat (apply elem_of_cons in Hh as [-> | Hh]);
      [..|by apply elem_of_nil in Hh];
      unfold handleApplyFilters, handleSearch, removeLocationChip,
        removeEmploymentTypeChip, removeExperienceLevelChip,
        handleClearFilters;
      (split; [by apply useEffect_filters_resets | reflexivity]). }
  destruct Hres as [Hpage Hf].
  set (c := {| call_filters := filters (h s); call_isRefresh := false |}) in *.
  assert (Hpend : fetches (h s) !! length (fetches s) = Some c)
    by (rewrite Hf; by rewrite lookup_app_r, Nat.sub_diag).
  eexists. split; [by apply step_FetchSettles|].
  rewrite loadJobs_resume_filters, loadJobs_resume_fetches.
  rewrite (loadJobs_resume_jobs _ _ l) by done.
  assert (Hc1 : page_is_1 (call_filters c) = true)
    by (unfold page_is_1, c; simpl; by rewrite bool_decide_eq_true_2).
  rewrite Hc1, (loadJobs_resume_pagination _ _ l p) by done.
  simpl. by rewrite Hf, delete_middle, app_nil_r.
Qed.

Lemma filter_change_replaces_items_witness :
  ∃ s', step (FetchSettles 0
                (Scenario.page_of [Scenario.mkJob "b1" false] 1 1))
          (handleApplyFilters Scenario.cebu
             (Scenario.after Scenario.first_page))
        = Some s'
        ∧ jobs s' = [Scenario.mkJob "b1" false].
Proof.
  destruct (filter_change_replaces_items
              (Scenario.after Scenario.first_page) Scenario.cebu
              (handleApplyFilters Scenario.cebu)
              {| body_jobs := Some [Scenario.mkJob "b1" false];
                 body_pagination :=
                   Some {| Pagination.total := 10; Pagination.page := 1;
                           Pagination.totalPages := 1 |} |}
              [Scenario.mkJob "b1" false]
              {| Pagination.total := 10; Pagination.page := 1;
                 Pagination.totalPages := 1 |}
              ltac:(left) eq_refl eq_refl)
    as (s' & Hs & Hj & _).
  exists s'. split; [exact Hs | exact Hj].
Defined.

(** *** The last page *)

(** X12: When a fetch is fulfilled with a pagination block whose page has reached
    the total number of pages, the screen stores that block and every
    load-more request that follows is ignored: the state is returned as it
    is, with no fetch issued. *)
Theorem last_page_stops_load_more (s : Screen) (n : nat) (c : FetchCall)
  (b : JobsBody) (l : list JobWithDetails) (p : Pagination.t) :
  fetches s !! n = Some c →
  body_jobs b = Some l →
  body_pagination b = Some p →
  Pagination.totalPages p ≤ Pagination.page p →
  ∃ s', step (FetchSettles n (Fulfilled (Some b))) s = Some s'
        ∧ pagination s' = p
        ∧ handleLoadMore s' = s'
        ∧ step LoadMore s' = Some s'.
Proof.
  intros Hn Hl Hp Hle. eexists. split; [by apply step_FetchSettles|].
  set (s' := loadJobs_resume c (Fulfilled (Some b))
               (set_fetches (delete n (fetches s)) s)).
  assert (Hpg : pagination s' = p)
    by (by apply (loadJobs_resume_pagination _ _ l)).
  assert (Hno : handleLoadMore s' = s').
  { unfold handleLoadMore. rewrite Hpg.
    rewrite (bool_decide_eq_false_2 (_ < _)) by lia.
    by rewrite andb_false_r. }
  split; [done|]. split; [done|].
  rewrite step_gesture; [by rewrite Hno | done | done].
Qed.

Lemma last_page_stops_load_more_witness :
  ∃ s', step (FetchSettles 0
                (Scenario.page_of [Scenario.mkJob "j3" false] 2 2))
          (handleLoadMore (Scenario.after Scenario.first_page)) = Some s'
        ∧ handleLoadMore s' = s'.
Proof.
  destruct (last_page_stops_load_more
              (handleLoadMore (Scenario.after Scenario.first_page)) 0
              {| call_filters := with_page (Some 2) default_filters;
                 call_isRefresh := false |}
              {| body_jobs := Some [Scenario.mkJob "j3" false];
                 body_pagination :=
                   Some {| Pagination.total := 20; Pagination.page := 2;
                           Pagination.totalPages := 2 |} |}
              [Scenario.mkJob "j3" false]
              {| Pagination.total := 20; Pagination.page := 2;
                 Pagination.totalPages := 2 |}
              eq_refl eq_refl eq_refl ltac:(simpl; lia))
    as (s' & Hs & _ & Hno & _).
  exists s'. split; [exact Hs | exact Hno].
Defined.

(** *** Saving and unsaving, composed *)

Lemma exec_app (evs1 evs2 : list Event) (s : Screen) :
  exec (evs1 ++ evs2) s = exec evs1 s ≫= exec evs2.
Proof.
  revert s. induction evs1 as [|e evs1 IH]; intros s; simpl; [done|].
  destruct (step e s); simpl; [apply IH | done].
Qed.

Lemma toggle_saved_involutive (jobId : string) (l : list JobWithDetails) :
  toggle_saved jobId (toggle_saved jobId l) = l.
Proof.
  unfold toggle_saved. rewrite <- list_fmap_compose.
  rewrite <- (list_fmap_id l) at 2. apply list_fmap_ext.
  intros _ j _. simpl.
  destruct (bool_decide (id j = jobId)) eqn:Hj; simpl; rewrite Hj; [|done].
  destruct j as [i t sv ap]. unfold with_isSaved. simpl.
  by rewrite negb_involutive.
Qed.

(** One tap on the bookmark of a listed job, followed by the success of its
    gateway call. *)
Lemma save_cycle (s : Screen) (jobId : string) (j : JobWithDetails) :
  isLoading s = false →
  find_job jobId (jobs s) = Some j →
  ∃ s', exec [SaveJob jobId; SaveSettles (length (saves s)) (Fulfilled ())] s
        = Some s'
        ∧ jobs s' = toggle_saved jobId (jobs s)
        ∧ saves s' = saves s
        ∧ alerts s' = alerts s ++ [("Success", save_message (isSaved j))]
        ∧ isLoading s' = false.
Proof.
  intros Hl Hfind.
  set (c := {| save_jobId := jobId; save_unsave := isSaved j |}).
  assert (Hs1 : handleSaveJob_start jobId s = set_saves (saves s ++ [c]) s).
  { unfold handleSaveJob_start. by rewrite Hfind. }
  eexists. split.
  { rewrite (exec_cons _ _ _ (set_saves (saves s ++ [c]) s)).
    - apply (exec_cons _ []). apply step_SaveSettles. simpl.
      by rewrite lookup_app_r, Nat.sub_diag.
    - rewrite step_gesture; [by rewrite Hs1 | simpl; by rewrite Hl | done]. }
  simpl. rewrite delete_middle, app_nil_r. by destruct (isSaved j).
Qed.

(** X13: Saving a listed job and then unsaving it (each tap made after the
    previous call has succeeded) brings the items back to exactly what they
    were: the first tap calls the gateway matching the job's flag, the second
    the opposite one, and two success alerts are shown, one of each kind. *)
Theorem save_then_unsave_round_trip (s : Screen) (jobId : string)
  (j : JobWithDetails) :
  isLoading s = false →
  find_job jobId (jobs s) = Some j →
  ∃ s', exec [SaveJob jobId; SaveSettles (length (saves s)) (Fulfilled ());
              SaveJob jobId; SaveSettles (length (saves s)) (Fulfilled ())] s
        = Some s'
        ∧ jobs s' = jobs s
        ∧ saves s' = saves s
        ∧ alerts s'
          = alerts s
            ++ [("Success", save_message (isSaved j));
                ("Success", save_message (negb (isSaved j)))].
Proof.
  intros Hl Hfind.
  destruct (save_cycle s jobId j Hl Hfind) as (s1 & He1 & Hj1 & Hs1 & Ha1 & Hl1).
  assert (Hfind1 : find_job jobId (jobs s1)
                   = Some (with_isSaved (negb (isSaved j)) j))
    by (by rewrite Hj1, find_job_toggle_saved, Hfind).
  destruct (save_cycle s1 jobId _ Hl1 Hfind1)
    as (s2 & He2 & Hj2 & Hs2 & Ha2 & _).
  exists s2. split.
  - change [SaveJob jobId; SaveSettles (length (saves s)) (Fulfilled ());
            SaveJob jobId; SaveSettles (length (saves s)) (Fulfilled ())]
      with ([SaveJob jobId; SaveSettles (length (saves s)) (Fulfilled ())]
            ++ [SaveJob jobId; SaveSettles (length (saves s)) (Fulfilled ())]).
    rewrite exec_app, He1. simpl. rewrite <- Hs1. exact He2.
  - rewrite Hj2, Hj1, toggle_saved_involutive, Hs2, Hs1, Ha2, Ha1.
    by rewrite <- app_assoc.
Qed.

Lemma save_then_unsave_round_trip_witness :
  let s := Scenario.after Scenario.first_page in
  isLoading s = false
  ∧ ∃ s', exec [SaveJob "j1"; SaveSettles 0 (Fulfilled ());
                SaveJob "j1"; SaveSettles 0 (Fulfilled ())] s = Some s'
          ∧ jobs s' = jobs s.
Proof.
  split; [reflexivity|].
  destruct (save_then_unsave_round_trip
              (Scenario.after Scenario.first_page) "j1"
              (Scenario.mkJob "j1" false) eq_refl eq_refl)
    as (s' & He & Hj & _).
  exists s'. split; [exact He | exact Hj].
Defined.

(** X14: Two taps on the bookmark of a listed job made before the first gateway
    call settles issue the same gateway call twice (both chosen from the flag
    the list shows at the time), and when both calls succeed the flag is
    flipped twice, so the items end up showing the flag from before the
    taps. *)
Theorem double_tap_save_cancels_out (s : Screen) (jobId : string)
  (j : JobWithDetails) :
  isLoading s = false →
  find_job jobId (jobs s) = Some j →
  let c := {| save_jobId := jobId; save_unsave := isSaved j |} in
  let n := length (saves s) in
  ∃ s2 s',
    exec [SaveJob jobId; SaveJob jobId] s = Some s2
    ∧ saves s2 = saves s ++ [c; c]
    ∧ jobs s2 = jobs s
    ∧ exec [SaveSettles n (Fulfilled ()); SaveSettles n (Fulfilled ())] s2
      = Some s'
    ∧ jobs s' = jobs s
    ∧ saves s' = saves s.
Proof.
  intros Hl Hfind c n.
  set (s1 := set_saves (saves s ++ [c]) s).
  set (s2 := set_saves (saves s1 ++ [c]) s1).
  assert (H1 : handleSaveJob_start jobId s = s1).
  { unfold handleSaveJob_start. by rewrite Hfind. }
  assert (H2 : handleSaveJob_start jobId s1 = s2).
  { unfold handleSaveJob_start. simpl. by rewrite Hfind. }
  assert (Hsv : saves s2 = saves s ++ [c; c]).
  { simpl. by rewrite <- app_assoc. }
  set (s3 := handleSaveJob_resume c (Fulfilled ())
               (set_saves (delete n (saves s2)) s2)).
  assert (Hsv3 : saves s3 = saves s ++ [c]).
  { unfold s3. simpl. unfold n. rewrite <- app_assoc. simpl.
    by rewrite delete_middle. }
  assert (Hj3 : jobs s3 = toggle_saved jobId (jobs s)) by done.
  set (s4 := handleSaveJob_resume c (Fulfilled ())
               (set_saves (delete n (saves s3)) s3)).
  assert (Hj4 : jobs s4 = toggle_saved jobId (jobs s3)) by done.
  assert (Hsv4 : saves s4 = delete n (saves s3)) by done.
  exists s2, s4. split.
  { rewrite (exec_cons _ _ _ s1)
      by (rewrite step_gesture;
          [by rewrite H1 | simpl; by rewrite Hl | done]).
    apply (exec_cons _ []).
    rewrite step_gesture; [by rewrite H2 | simpl; by rewrite Hl | done]. }
  split; [done|]. split; [done|]. split.
  { rewrite (exec_cons _ _ _ s3).
    - apply (exec_cons _ []). apply step_SaveSettles.
      rewrite Hsv3. by rewrite lookup_app_r, Nat.sub_diag.
    - apply step_SaveSettles. rewrite Hsv.
      by rewrite lookup_app_r, Nat.sub_diag. }
  rewrite Hj4, Hsv4, Hj3, toggle_saved_involutive, Hsv3. unfold n.
  by rewrite delete_middle, app_nil_r.
Qed.

Lemma double_tap_save_cancels_out_witness :
  let s := Scenario.after Scenario.first_page in
  find_job "j1" (jobs s) = Some (Scenario.mkJob "j1" false)
  ∧ ∃ s2 s', exec [SaveJob "j1"; SaveJob "j1"] s = Some s2
             ∧ exec [SaveSettles 0 (Fulfilled ());
                     SaveSettles 0 (Fulfilled ())] s2 = Some s'
             ∧ jobs s' = jobs s.
Proof.
  split; [reflexivity|].
  destruct (double_tap_save_cancels_out
              (Scenario.after Scenario.first_page) "j1"
              (Scenario.mkJob "j1" false) eq_refl eq_refl)
    as (s2 & s' & He & _ & _ & He' & Hj & _).
  exists s2, s'. split; [exact He|]. split; [exact He' | exact Hj].
Defined.

(** *** The filter badge *)

(** X15: The badge counts at most six active filters; clearing the filters empties
    the search box and brings the count to zero; removing the chip of an
    active location, employment-type or experience-level filter lowers the
    count by exactly one. *)
Theorem active_filters_count (s : Screen) :
  (FindJobsView.getActiveFiltersCount (filters s) ≤ 6)%nat
  ∧ FindJobsView.getActiveFiltersCount (filters (handleClearFilters s)) = 0%nat
  ∧ searchQuery (handleClearFilters s) = ""
  ∧ (truthy (location (filters s)) = true →
     S (FindJobsView.getActiveFiltersCount (filters (removeLocationChip s)))
     = FindJobsView.getActiveFiltersCount (filters s))
  ∧ (truthy (employmentType (filters s)) = true →
     S (FindJobsView.getActiveFiltersCount
          (filters (removeEmploymentTypeChip s)))
     = FindJobsView.getActiveFiltersCount (filters s))
  ∧ (truthy (experienceLevel (filters s)) = true →
     S (FindJobsView.getActiveFiltersCount
          (filters (removeExperienceLevelChip s)))
     = FindJobsView.getActiveFiltersCount (filters s)).
Proof.
  unfold removeLocationChip, removeEmploymentTypeChip,
    removeExperienceLevelChip, handleClearFilters.
  rewrite !useEffect_filters_filters.
  unfold FindJobsView.getActiveFiltersCount. simpl.
  split; [|split; [done|split; [done|]]].
  - repeat match goal with |- context [if ?b then _ else _] =>
      destruct b end; lia.
  - repeat split; intros ->;
      repeat match goal with |- context [if ?b then _ else _] =>
        destruct b end; lia.
Qed.

Lemma active_filters_count_witness :
  let s := setFilters Scenario.cebu (Scenario.after Scenario.first_page) in
  truthy (location (filters s)) = true
  ∧ S (FindJobsView.getActiveFiltersCount (filters (removeLocationChip s)))
    = FindJobsView.getActiveFiltersCount (filters s).
Proof.
  assert (Ht : truthy (location
                 (filters (setFilters Scenario.cebu
                             (Scenario.after Scenario.first_page)))) = true)
    by reflexivity.
  split; [exact Ht|].
  destruct (active_filters_count
              (setFilters Scenario.cebu (Scenario.after Scenario.first_page)))
    as (_ & _ & _ & Hloc & _).
  exact (Hloc Ht).
Defined.

(** ** The my-applications screen *)






Section Applications.

Context (toLowerCase : string → string) (includes : string → string → bool)
  (trim : string → string).

Abbreviation filtered_of :=
  (MyApplications.filtered_of toLowerCase includes trim).


End Applications.






(** X23: Withdrawing an application is confirmed first and applied by reloading.
    Opening the confirmation dialog issues no gateway call, and Cancel puts
    the screen back exactly as it was.  Pressing Withdraw issues one
    [withdrawApplication] call for that application and still changes no
    list.  If that call fails, the lists are untouched, one error alert is
    shown and no reload is issued.  If it succeeds, a success alert is shown
    and one reload is issued; the lists change only when the reload's
    response arrives, and then they are the response's applications and the
    current search and tab applied to them. *)
Theorem withdraw_flow (toLowerCase : string → string)
  (includes : string → string → bool) (trim : string → string)
  (s : MyApplications.Screen) (applicationId jobTitle : string)
  (e : AxiosError) (l' : list MyApplications.Application) :
  let n := length (MyApplications.dialogs s) in
  let k := length (MyApplications.withdraws s) in
  let s1 := MyApplications.handleWithdrawApplication applicationId jobTitle s in
  let s2 := MyApplications.pressWithdraw n s1 in
  let failed := MyApplications.withdraw_resume k (Rejected e) s2 in
  let done := MyApplications.withdraw_resume k (Fulfilled ()) s2 in
  let reloaded :=
    MyApplications.loadApplications_resume toLowerCase includes trim
      (Fulfilled (MyApplications.WithApplications l')) done in
  (MyApplications.withdraws s1 = MyApplications.withdraws s
   ∧ MyApplications.loads s1 = MyApplications.loads s
   ∧ MyApplications.pressCancel n s1 = s)
  ∧ (MyApplications.withdraws s2
     = MyApplications.withdraws s ++ [applicationId]
     ∧ MyApplications.applications s2 = MyApplications.applications s
     ∧ MyApplications.dialogs s2 = MyApplications.dialogs s)
  ∧ (MyApplications.applications failed = MyApplications.applications s
     ∧ MyApplications.filteredApplications failed
       = MyApplications.filteredApplications s
     ∧ MyApplications.loads failed = MyApplications.loads s
     ∧ MyApplications.withdraws failed = MyApplications.withdraws s
     ∧ MyApplications.alerts failed
       = MyApplications.alerts s
         ++ [("Error",
              or_else (data_error e) "Failed to withdraw application")])
  ∧ (MyApplications.applications done = MyApplications.applications s
     ∧ MyApplications.filteredApplications done
       = MyApplications.filteredApplications s
     ∧ MyApplications.loads done = S (MyApplications.loads s)
     ∧ MyApplications.alerts done
       = MyApplications.alerts s
         ++ [("Success", "Application withdrawn successfully")])
  ∧ (MyApplications.applications reloaded = l'
     ∧ MyApplications.filteredApplications reloaded
       = MyApplications.filtered_of toLowerCase includes trim l'
           (MyApplications.searchQuery s) (MyApplications.filterStatus s)
     ∧ MyApplications.loads reloaded = MyApplications.loads s
     ∧ MyApplications.isLoading reloaded = false
     ∧ MyApplications.refreshing reloaded = false).
Proof.
  intros n k s1 s2 failed done reloaded.
  assert (Hs2 : s2 = MyApplications.set_withdraws
                       (MyApplications.withdraws s ++ [applicationId]) s).
  { unfold s2, MyApplications.pressWithdraw, s1, n. simpl.
    rewrite lookup_app_r, Nat.sub_diag by done. simpl.
    rewrite delete_middle, app_nil_r. by destruct s. }
  assert (Hk : MyApplications.withdraws s2 !! k = Some applicationId).
  { rewrite Hs2. simpl. unfold k. by rewrite lookup_app_r, Nat.sub_diag. }
  assert (Hdel : delete k (MyApplications.withdraws s2)
                 = MyApplications.withdraws s).
  { rewrite Hs2. simpl. unfold k. by rewrite delete_middle, app_nil_r. }
  split; [|split; [|split; [|split]]].
  - unfold s1, n, MyApplications.pressCancel. simpl.
    rewrite delete_middle, app_nil_r. by destruct s.
  - by rewrite Hs2.
  - unfold failed, MyApplications.withdraw_resume. rewrite Hk, Hdel.
    by rewrite Hs2.
  - unfold done, MyApplications.withdraw_resume. rewrite Hk, Hdel.
    by rewrite Hs2.
  - unfold reloaded, done, MyApplications.withdraw_resume. rewrite Hk, Hdel.
    by rewrite Hs2.
Qed.

(** ** The job-details screen: applying and saving *)

(** X24: Whatever the outcome of the submission, the apply form is closed and the
    applying flag is lowered afterwards.  The request carries the id of the
    job on screen and the cover letter as typed when Apply was pressed.  A
    failed submission leaves the job as it was and shows one error alert; a
    successful one marks the job as applied.  Without a job on screen,
    pressing Apply does nothing. *)
Theorem apply_outcomes (s : JobDetailsApply.Screen) (j : JobWithDetails)
  (e : AxiosError) :
  JobDetails.job (JobDetailsApply.base s) = Some j →
  let s1 := JobDetailsApply.handleApply_start s in
  let c := {| JobDetailsApply.apply_job := j;
              JobDetailsApply.data_coverLetter :=
                JobDetailsApply.coverLetter s;
              JobDetailsApply.data_jobId := id j |} in
  let failed := JobDetailsApply.handleApply_resume c (Rejected e) s1 in
  let applied := JobDetailsApply.handleApply_resume c (Fulfilled ()) s1 in
  JobDetailsApply.applies s1 = JobDetailsApply.applies s ++ [c]
  ∧ JobDetailsApply.isApplying s1 = true
  ∧ JobDetails.job (JobDetailsApply.base s1) = Some j
  ∧ (JobDetailsApply.isApplying failed = false
     ∧ JobDetailsApply.showApplyModal failed = false
     ∧ JobDetails.job (JobDetailsApply.base failed) = Some j
     ∧ JobDetails.alerts (JobDetailsApply.base failed)
       = JobDetails.alerts (JobDetailsApply.base s)
         ++ [("Error",
              or_else (data_error e) "Failed to submit application")])
  ∧ (JobDetailsApply.isApplying applied = false
     ∧ JobDetailsApply.showApplyModal applied = false
     ∧ JobDetails.job (JobDetailsApply.base applied)
       = Some (JobDetailsApply.with_hasApplied true j)).
Proof.
  intros Hj s1 c failed applied.
  assert (Hs1 : s1 = JobDetailsApply.set_applies
                       (JobDetailsApply.applies s ++ [c])
                       (JobDetailsApply.setIsApplying true s)).
  { unfold s1, JobDetailsApply.handleApply_start. by rewrite Hj. }
  unfold failed, applied. rewrite Hs1. simpl. by rewrite Hj.
Qed.

Lemma apply_outcomes_witness :
  JobDetails.job (JobDetailsApply.base DemoDetails.form_open)
  = Some DemoDetails.j1
  ∧ JobDetailsApply.isApplying
      (JobDetailsApply.handleApply_start DemoDetails.form_open) = true.
Proof.
  split; [reflexivity|].
  apply (apply_outcomes DemoDetails.form_open DemoDetails.j1
           {| status := None; data_error := None |} eq_refl).
Defined.

(** X25: On the details screen a save toggle and an application that are both
    pending were started from the same job object, and each writes that whole
    object back with its own field changed: when both succeed, the one that
    settles last overwrites the other's change.  If the save settles first,
    the job ends up applied with its saved flag as before the toggle; if the
    application settles first, the job ends up with the saved flag flipped
    and not marked as applied.  When the application is started only after
    the save has settled, both changes are kept. *)
Theorem overlapping_save_and_apply (s : JobDetailsApply.Screen)
  (j : JobWithDetails) :
  JobDetails.job (JobDetailsApply.base s) = Some j →
  let s1 := JobDetailsApply.handleApply_start
              (JobDetailsApply.handleSaveJob_start s) in
  let cs := {| JobDetails.save_job := j |} in
  let ca := {| JobDetailsApply.apply_job := j;
               JobDetailsApply.data_coverLetter :=
                 JobDetailsApply.coverLetter s;
               JobDetailsApply.data_jobId := id j |} in
  let saved := JobDetailsApply.handleSaveJob_resume cs (Fulfilled ())
                 (JobDetailsApply.handleSaveJob_start s) in
  JobDetails.saves (JobDetailsApply.base s1)
  = JobDetails.saves (JobDetailsApply.base s) ++ [cs]
  ∧ JobDetailsApply.applies s1 = JobDetailsApply.applies s ++ [ca]
  ∧ JobDetails.job
      (JobDetailsApply.base
         (JobDetailsApply.handleApply_resume ca (Fulfilled ())
            (JobDetailsApply.handleSaveJob_resume cs (Fulfilled ()) s1)))
    = Some (JobDetailsApply.with_hasApplied true j)
  ∧ JobDetails.job
      (JobDetailsApply.base
         (JobDetailsApply.handleSaveJob_resume cs (Fulfilled ())
            (JobDetailsApply.handleApply_resume ca (Fulfilled ()) s1)))
    = Some (with_isSaved (negb (isSaved j)) j)
  ∧ ∃ ca',
      JobDetailsApply.applies (JobDetailsApply.handleApply_start saved)
      = JobDetailsApply.applies s ++ [ca']
      ∧ JobDetails.job
          (JobDetailsApply.base
             (JobDetailsApply.handleApply_resume ca' (Fulfilled ())
                (JobDetailsApply.handleApply_start saved)))
        = Some (JobDetailsApply.with_hasApplied true
                  (with_isSaved (negb (isSaved j)) j)).
Proof.
  intros Hj s1 cs ca saved.
  assert (Hs0 : JobDetails.handleSaveJob_start (JobDetailsApply.base s)
                = {| JobDetails.job := Some j;
                     JobDetails.alerts :=
                       JobDetails.alerts (JobDetailsApply.base s);
                     JobDetails.saves :=
                       JobDetails.saves (JobDetailsApply.base s) ++ [cs] |}).
  { unfold JobDetails.handleSaveJob_start. by rewrite Hj. }
  assert (Hs1 : s1 = JobDetailsApply.set_applies
                       (JobDetailsApply.applies s ++ [ca])
                       (JobDetailsApply.setIsApplying true
                          (JobDetailsApply.handleSaveJob_start s))).
  { unfold s1, JobDetailsApply.handleApply_start,
      JobDetailsApply.handleSaveJob_start. simpl. by rewrite Hs0. }
  assert (Hsaved : JobDetails.job (JobDetailsApply.base saved)
                   = Some (with_isSaved (negb (isSaved j)) j)).
  { unfold saved, JobDetailsApply.handleSaveJob_resume. simpl.
    by destruct (isSaved j). }
  split; [rewrite Hs1; simpl; by rewrite Hs0|].
  split; [by rewrite Hs1|].
  split; [by rewrite Hs1|].
  split.
  { rewrite Hs1. simpl. by destruct (isSaved j). }
  eexists. split.
  - unfold JobDetailsApply.handleApply_start. rewrite Hsaved. simpl. done.
  - unfold JobDetailsApply.handleApply_start. rewrite Hsaved. done.
Qed.

Lemma overlapping_save_and_apply_witness :
  let s1 := JobDetailsApply.handleApply_start
              (JobDetailsApply.handleSaveJob_start DemoDetails.form_open) in
  JobDetails.job (JobDetailsApply.base DemoDetails.form_open)
  = Some DemoDetails.j1
  ∧ JobDetails.job
      (JobDetailsApply.base
         (JobDetailsApply.handleApply_resume
            {| JobDetailsApply.apply_job := DemoDetails.j1;
               JobDetailsApply.data_coverLetter := "Dear team";
               JobDetailsApply.data_jobId := "j1" |} (Fulfilled ())
            (JobDetailsApply.handleSaveJob_resume
               {| JobDetails.save_job := DemoDetails.j1 |} (Fulfilled ())
               s1)))
    = Some (JobDetailsApply.with_hasApplied true DemoDetails.j1).
Proof.
  split; [reflexivity|].
  destruct (overlapping_save_and_apply DemoDetails.form_open DemoDetails.j1
              eq_refl) as (_ & _ & H & _).
  exact H.
Defined.

(** ** The filter form *)

Lemma toggle_twice (o : option string) (t : string) :
  (if bool_decide ((if bool_decide (o = Some t) then None else Some t)
                   = Some t)
   then None else Some t)
  = if bool_decide (o = Some t) then Some t else None.
Proof.
  destruct (decide (o = Some t)) as [Ho|Ho].
  - rewrite (bool_decide_eq_true_2 _ Ho).
    by rewrite (bool_decide_eq_false_2 (None = Some t)).
  - rewrite (bool_decide_eq_false_2 _ Ho).
    by rewrite (bool_decide_eq_true_2 (Some t = Some t)).
Qed.

(** X17: Tapping an employment type (or an experience level) selects it unless it
    was the selected one, in which case nothing is selected afterwards; so a
    second tap on the same option always ends with nothing selected unless
    the option was selected to begin with, and no other filter field is
    touched. *)
Theorem toggle_selects_or_clears (f : FindJobs.JobFilters) (t : string) :
  (FindJobs.employmentType (JobFiltersModal.toggleJobType t f)
   = if bool_decide (FindJobs.employmentType f = Some t) then None else Some t)
  ∧ (FindJobs.employmentType
       (JobFiltersModal.toggleJobType t (JobFiltersModal.toggleJobType t f))
     = if bool_decide (FindJobs.employmentType f = Some t)
       then Some t else None)
  ∧ (FindJobs.employmentType f = None ∨ FindJobs.employmentType f = Some t →
     JobFiltersModal.toggleJobType t (JobFiltersModal.toggleJobType t f) = f)
  ∧ (FindJobs.experienceLevel (JobFiltersModal.toggleExperienceLevel t f)
     = if bool_decide (FindJobs.experienceLevel f = Some t)
       then None else Some t)
  ∧ (FindJobs.experienceLevel f = None ∨ FindJobs.experienceLevel f = Some t →
     JobFiltersModal.toggleExperienceLevel t
       (JobFiltersModal.toggleExperienceLevel t f) = f)
  ∧ FindJobs.with_employmentType (FindJobs.employmentType f)
      (JobFiltersModal.toggleJobType t f) = f
  ∧ FindJobs.with_experienceLevel (FindJobs.experienceLevel f)
      (JobFiltersModal.toggleExperienceLevel t f) = f.
Proof.
  unfold JobFiltersModal.toggleJobType, JobFiltersModal.toggleExperienceLevel.
  destruct f as [pg lm se lo et el smin smax sk re]. simpl.
  unfold with_employmentType, with_experienceLevel. simpl.
  rewrite !toggle_twice.
  repeat split.
  - intros [-> | ->].
    + by rewrite (bool_decide_eq_false_2 (None = Some t)).
    + by rewrite (bool_decide_eq_true_2 (Some t = Some t)).
  - intros [-> | ->].
    + by rewrite (bool_decide_eq_false_2 (None = Some t)).
    + by rewrite (bool_decide_eq_true_2 (Some t = Some t)).
Qed.

Lemma toggle_selects_or_clears_witness :
  FindJobs.employmentType FindJobs.default_filters = None
  ∧ JobFiltersModal.toggleJobType "FULL_TIME"
      (JobFiltersModal.toggleJobType "FULL_TIME" FindJobs.default_filters)
    = FindJobs.default_filters.
Proof.
  split; [reflexivity|].
  destruct (toggle_selects_or_clears FindJobs.default_filters "FULL_TIME")
    as (_ & _ & H & _).
  apply H. left. reflexivity.
Defined.

(** X18: A salary option is drawn as selected right after it has been picked
    exactly when its minimum is a non-zero number: an option whose minimum is
    0 is stored with no minimum at all and is never drawn as selected. *)
Theorem salary_option_selected (f : FindJobs.JobFilters) (min max : option Z) :
  JobFiltersModal.isSelected min max
    (JobFiltersModal.setSalaryRange min max f) = true
  ↔ ∃ lo, min = Some lo ∧ lo ≠ 0.
Proof.
  unfold JobFiltersModal.isSelected, JobFiltersModal.setSalaryRange,
    JobFiltersModal.or_undefined. simpl.
  destruct min as [lo|]; simpl.
  - destruct (decide (lo = 0)) as [->|Hlo].
    + simpl. split; [done|]. by intros (lo & [= <-] & Hne).
    + rewrite (bool_decide_eq_true_2 (lo ≠ 0)) by done.
      rewrite (bool_decide_eq_true_2 (Some lo = Some lo)) by done. simpl.
      split; [by exists lo|]. intros _.
      destruct max as [hi|]; simpl; [|done].
      destruct (decide (hi = 0)) as [->|Hhi]; [done|].
      rewrite (bool_decide_eq_true_2 (hi ≠ 0)) by done.
      by rewrite bool_decide_eq_true_2.
  - split; [done|]. by intros (lo & [=] & _).
Qed.

(** X19: The badge in the modal and the badge on the screen count the same
    filters differently.  They agree whenever no skills filter is set and a
    maximum salary is set only together with a minimum.  When only a maximum
    salary is set (as after picking an option whose minimum is 0), the modal
    counts one filter more than the screen. *)
Theorem badges_agree_or_differ_by_salary (f : FindJobs.JobFilters) :
  default [] (FindJobs.skills f) = [] →
  (FindJobsView.truthy_num (FindJobs.salaryMax f) = true →
   FindJobsView.truthy_num (FindJobs.salaryMin f) = true →
   JobFiltersModal.getActiveFiltersCount f
   = FindJobsView.getActiveFiltersCount f)
  ∧ (FindJobsView.truthy_num (FindJobs.salaryMax f) = false →
     JobFiltersModal.getActiveFiltersCount f
     = FindJobsView.getActiveFiltersCount f)
  ∧ (FindJobsView.truthy_num (FindJobs.salaryMax f) = true →
     FindJobsView.truthy_num (FindJobs.salaryMin f) = false →
     JobFiltersModal.getActiveFiltersCount f
     = S (FindJobsView.getActiveFiltersCount f)).
Proof.
  intros Hsk.
  unfold JobFiltersModal.getActiveFiltersCount,
    FindJobsView.getActiveFiltersCount.
  assert (Hs : match FindJobs.skills f with
               | Some l => bool_decide (0 < length l)%nat
               | None => false
               end = false).
  { destruct (FindJobs.skills f) as [l|]; [|done]. simpl in Hsk. by subst l. }
  rewrite Hs.
  repeat split.
  - intros -> ->. simpl.
    repeat match goal with |- context [if ?b then _ else _] =>
      destruct b end; lia.
  - intros ->. rewrite orb_false_r.
    repeat match goal with |- context [if ?b then _ else _] =>
      destruct b end; lia.
  - intros -> ->. simpl.
    repeat match goal with |- context [if ?b then _ else _] =>
      destruct b end; lia.
Qed.

Lemma badges_agree_or_differ_by_salary_witness :
  let f := JobFiltersModal.setSalaryRange (Some 0) (Some 50000)
             FindJobs.default_filters in
  default [] (FindJobs.skills f) = []
  ∧ JobFiltersModal.getActiveFiltersCount f
    = S (FindJobsView.getActiveFiltersCount f).
Proof.
  split; [reflexivity|].
  destruct (badges_agree_or_differ_by_salary
              (JobFiltersModal.setSalaryRange (Some 0) (Some 50000)
                 FindJobs.default_filters) eq_refl) as (_ & _ & H).
  apply H; reflexivity.
Defined.

(** X20: Reset followed by Apply in the modal gives the screen the same query as
    Clear All does (page 1, limit 10, nothing else, and a fetch for it), but
    unlike Clear All it leaves the text in the search box. *)
Theorem reset_and_apply_is_clear_all (s : Screen) (f : JobFilters) :
  let applied := handleApplyFilters (JobFiltersModal.handleReset f) s in
  filters applied = filters (handleClearFilters s)
  ∧ filters applied = default_filters
  ∧ fetches applied = fetches (handleClearFilters s)
  ∧ showFilters applied = false
  ∧ searchQuery applied = searchQuery s
  ∧ searchQuery (handleClearFilters s) = "".
Proof.
  unfold handleApplyFilters, handleClearFilters, JobFiltersModal.handleReset.
  rewrite !useEffect_filters_filters.
  repeat split.
Qed.

(** ** Pull-to-refresh *)

Lemma fetches_set_fetches (v : list FetchCall) (s : Screen) :
  fetches (set_fetches v s) = v.
Proof. done. Qed.

(** X16: A pull-to-refresh issues two fetches: a refresh call for the query as it
    is (on whatever page it has reached) and, through the filters effect, a
    plain call for the same query on page 1; it raises [isRefreshing] and
    [isLoading] and leaves the query on page 1.  Both responses replace the
    items, so once both have arrived the items are those of the response
    that arrived last, no fetch of the gesture is pending and all flags are
    down. *)
Theorem pull_to_refresh_two_fetches (s : Screen) (bR bE : JobsBody)
  (lR lE : list JobWithDetails) :
  isLoading s = false →
  body_jobs bR = Some lR →
  body_jobs bE = Some lE →
  let n := length (fetches s) in
  let cR := {| call_filters := filters s; call_isRefresh := true |} in
  let cE := {| call_filters := with_page (Some 1) (filters s);
               call_isRefresh := false |} in
  ∃ s1, step Refresh s = Some s1
        ∧ fetches s1 = fetches s ++ [cR; cE]
        ∧ page (filters s1) = Some 1
        ∧ isRefreshing s1 = true
        ∧ isLoading s1 = true
        ∧ (∃ s', exec [FetchSettles n (Fulfilled (Some bR));
                       FetchSettles n (Fulfilled (Some bE))] s1 = Some s'
                 ∧ jobs s' = lE ∧ fetches s' = fetches s
                 ∧ flags_up s' = 0%nat)
        ∧ (∃ s', exec [FetchSettles (S n) (Fulfilled (Some bE));
                       FetchSettles n (Fulfilled (Some bR))] s1 = Some s'
                 ∧ jobs s' = lR ∧ fetches s' = fetches s
                 ∧ flags_up s' = 0%nat).
Proof.
  intros Hl HbR HbE n cR cE.
  pose proof (handleRefresh_fetches s) as Hf. fold cR cE in Hf.
  exists (handleRefresh s).
  split; [rewrite step_gesture; [done | simpl; by rewrite Hl | done]|].
  split; [done|]. split; [done|]. split; [done|]. split.
  { unfold handleRefresh, useEffect_filters, loadJobs_start, page_is_1.
    simpl. done. }
  assert (HnR : fetches (handleRefresh s) !! n = Some cR)
    by (rewrite Hf; by rewrite lookup_app_r, Nat.sub_diag).
  assert (HnE : fetches (handleRefresh s) !! S n = Some cE).
  { rewrite Hf, lookup_app_r by (unfold n; lia).
    by replace (S n - length (fetches s))%nat with 1%nat by (unfold n; lia). }
  split.
  - set (s2 := loadJobs_resume cR (Fulfilled (Some bR))
                 (set_fetches (delete n (fetches (handleRefresh s)))
                    (handleRefresh s))).
    assert (Hf2 : fetches s2 = fetches s ++ [cE]).
    { unfold s2, n.
      by rewrite loadJobs_resume_fetches, fetches_set_fetches, Hf,
        delete_middle. }
    exists (loadJobs_resume cE (Fulfilled (Some bE))
              (set_fetches (delete n (fetches s2)) s2)).
    split.
    { rewrite (exec_cons _ _ _ s2) by (by apply step_FetchSettles).
      apply (exec_cons _ []). apply step_FetchSettles.
      rewrite Hf2. by rewrite lookup_app_r, Nat.sub_diag. }
    rewrite (loadJobs_resume_jobs _ _ lE), loadJobs_resume_fetches by done.
    unfold n. rewrite fetches_set_fetches, Hf2, delete_middle, app_nil_r.
    done.
  - set (s2 := loadJobs_resume cE (Fulfilled (Some bE))
                 (set_fetches (delete (S n) (fetches (handleRefresh s)))
                    (handleRefresh s))).
    assert (Hf2 : fetches s2 = fetches s ++ [cR]).
    { unfold s2. rewrite loadJobs_resume_fetches, fetches_set_fetches, Hf.
      change (fetches s ++ [cR; cE]) with (fetches s ++ [cR] ++ [cE]).
      rewrite app_assoc.
      replace (S n) with (length (fetches s ++ [cR]))
        by (rewrite length_app; simpl; unfold n; lia).
      by rewrite delete_middle, app_nil_r. }
    exists (loadJobs_resume cR (Fulfilled (Some bR))
              (set_fetches (delete n (fetches s2)) s2)).
    split.
    { rewrite (exec_cons _ _ _ s2) by (by apply step_FetchSettles).
      apply (exec_cons _ []). apply step_FetchSettles.
      rewrite Hf2. by rewrite lookup_app_r, Nat.sub_diag. }
    rewrite (loadJobs_resume_jobs _ _ lR), loadJobs_resume_fetches by done.
    unfold n. rewrite fetches_set_fetches, Hf2, delete_middle, app_nil_r.
    change (call_isRefresh cR) with true. by rewrite orb_true_r.
Qed.

Lemma pull_to_refresh_two_fetches_witness :
  isLoading (Scenario.after Scenario.first_page) = false
  ∧ ∃ s1, step Refresh (Scenario.after Scenario.first_page) = Some s1
          ∧ isRefreshing s1 = true ∧ isLoading s1 = true.
Proof.
  split; [reflexivity|].
  destruct (pull_to_refresh_two_fetches
              (Scenario.after Scenario.first_page)
              {| body_jobs := Some []; body_pagination := None |}
              {| body_jobs := Some []; body_pagination := None |}
              [] [] eq_refl eq_refl eq_refl)
    as (s1 & Hs & _ & _ & Hr & Hl & _).
  exists s1. split; [exact Hs|]. split; [exact Hr | exact Hl].
Defined.
